(** * holodraft: backend/scripts/convert_stl_to_fbx.py

    A shallow embedding of the Blender conversion script and the proofs of
    its specification.  The script is straight-line Python over three
    things: [sys.argv], four [bpy.ops] operators of the host, and the file
    system as seen through [os.path].  The Python primitives it uses are
    embedded in [Module Py]; the host operators are the fields of the
    [Host] class, so every theorem holds for any host; the script itself
    is [parse_args], [convert] and [main]. *)

From Stdlib Require Import ZArith Lia List String Ascii DecimalString.
From stdpp Require Import base option list gmap strings.

Local Open Scope string_scope.
Local Open Scope Z_scope.

(** ** Python primitives *)

Module Py.

(** The exceptions that can reach the top level of the script.  The
    [bpy.ops] operators report their failures as [RuntimeError]. *)
Inductive exn : Type :=
| ValueError
| IndexError
| ZeroDivisionError
| OverflowError
| OSError
| RuntimeError (msg : string).

Inductive result (A : Type) : Type :=
| Ok (a : A)
| Raise (e : exn).
Arguments Ok {A} a.
Arguments Raise {A} e.

Definition bind {A B : Type} (r : result A) (k : A -> result B) : result B :=
  match r with
  | Ok a => k a
  | Raise e => Raise e
  end.

(** [l.index(x)]: the position of the first element equal to [x];
    [ValueError] when there is none. *)
Fixpoint list_index (x : string) (l : list string) : result nat :=
  match l with
  | [] => Raise ValueError
  | y :: l' =>
      if String.eqb y x then Ok 0%nat
      else bind (list_index x l') (fun i => Ok (S i))
  end.

(** [l[i]] for a non-negative literal [i]: [IndexError] out of range. *)
Definition getitem {A : Type} (l : list A) (i : nat) : result A :=
  match l !! i with
  | Some a => Ok a
  | None => Raise IndexError
  end.

(** [l[i:]] for a non-negative [i]: never raises, empty past the end. *)
Definition slice_from {A : Type} (i : nat) (l : list A) : list A := drop i l.

(** A finite binary64 value: (-1)^sign * mant * 2^expo with [0 <= mant]. *)
Record float : Type := Float { sign : bool; mant : Z; expo : Z }.

(** The integer nearest to [n / d] for [0 <= n] and [0 < d], a tie going to
    the even neighbour: the rounding of IEEE 754 arithmetic and of
    Python's float formatting. *)
Definition round_half_even (n d : Z) : Z :=
  let q := n / d in
  let r := n mod d in
  match 2 * r ?= d with
  | Lt => q
  | Gt => q + 1
  | Eq => if Z.even q then q else q + 1
  end.

(** [a / b] on two [int]s (true division): the binary64 value nearest to
    the exact quotient, which CPython computes correctly rounded from the
    integers themselves.  [k] is the binary exponent of the quotient, [e]
    the exponent of the last of its 53 significant bits (bounded below by
    the subnormal exponent -1074). *)
Definition int_truediv (a b : Z) : result float :=
  if b =? 0 then Raise ZeroDivisionError
  else
    let s := xorb (a <? 0) (b <? 0) in
    if a =? 0 then Ok (Float s 0 0)
    else
      let x := Z.abs a in
      let y := Z.abs b in
      let d := Z.log2 x - Z.log2 y in
      let below :=
        if 0 <=? d then x <? y * 2 ^ d else x * 2 ^ (- d) <? y in
      let k := if below then d - 1 else d in
      let e := Z.max (k - 52) (-1074) in
      let m :=
        if 0 <=? e then round_half_even x (y * 2 ^ e)
        else round_half_even (x * 2 ^ (- e)) y in
      if 2 ^ 1024 <=? m * 2 ^ e then Raise OverflowError
      else Ok (Float s m e).

(** The absolute value of [x] in hundredths, rounded to an integer the way
    the ['f'] presentation type rounds: correctly, ties to even. *)
Definition hundredths (x : float) : Z :=
  if 0 <=? expo x then 100 * mant x * 2 ^ expo x
  else round_half_even (100 * mant x) (2 ^ (- expo x)).

Definition digit (d : Z) : ascii := ascii_of_nat (48 + Z.to_nat d).

Definition str_int (z : Z) : string :=
  NilZero.string_of_uint (N.to_uint (Z.to_N z)).

(** A non-negative number of hundredths in fixed-point notation: the
    integer digits, the point, two decimals. *)
Definition fixed2 (h : Z) : string :=
  str_int (h / 100) ++ "."
  ++ String (digit ((h mod 100) / 10)) (String (digit (h mod 10)) EmptyString).

(** [format(x, ".2f")] *)
Definition format_2f (x : float) : string :=
  (if sign x then "-" else EmptyString) ++ fixed2 (hundredths x).

End Py.
Import Py.

(** ** The host and the file system *)

(** An object of the scene: its name and its selection flag. *)
Record Obj : Type := { ob_name : string; ob_select : bool }.

(** What the host operators act on: the objects of the current scene and
    the file system, as the paths that exist with the bytes found there.
    The script sees of it only whether a path exists and how long its
    contents are. *)
Record World : Type := { objects : list Obj; files : gmap string (list Byte.byte) }.

(** A [bpy.ops] call either returns (the script discards the status set
    it returns) or raises; either way it may have changed the world. *)
Inductive outcome : Type :=
| Returned (w : World)
| Raised (e : exn) (w : World).

(** The four operators of the host the script calls, with the keyword
    arguments it passes.  They are not part of the repository. *)
Class Host : Type := {
  object_select_all : string -> World -> outcome;
  object_delete : bool -> World -> outcome;
  wm_stl_import : string -> World -> outcome;
  export_scene_gltf : string -> string -> World -> outcome
}.

(** What a run does, in order: host calls with their arguments, lines
    printed, file system queries. *)
Inductive event : Type :=
| SelectAll (action : string)
| Delete (use_global : bool)
| StlImport (filepath : string)
| GltfExport (filepath export_format : string)
| Print (line : string)
| PathExists (path : string)
| GetSize (path : string).

Record State : Type := { world : World; trace : list event }.

(** Script computations: state passing with exceptions.  The state
    reached when an exception is raised is kept. *)
Definition M (A : Type) : Type := State -> result A * State.

Definition mbind {A B : Type} (m : M A) (k : A -> M B) : M B :=
  fun st =>
    match m st with
    | (Ok a, st') => k a st'
    | (Raise e, st') => (Raise e, st')
    end.

Notation "x <- m ;; k" := (mbind m (fun x => k))
  (at level 100, m at next level, right associativity).
Notation "m ;;; k" := (mbind m (fun _ => k))
  (at level 100, right associativity).

Definition lift {A : Type} (r : result A) : M A := fun st => (r, st).

Definition log (ev : event) (st : State) : State :=
  {| world := world st; trace := trace st ++ [ev] |}.

Definition call (ev : event) (op : World -> outcome) : M unit :=
  fun st =>
    match op (world st) with
    | Returned w => (Ok tt, {| world := w; trace := trace st ++ [ev] |})
    | Raised e w => (Raise e, {| world := w; trace := trace st ++ [ev] |})
    end.

(** [print(line)]; standard output is taken to accept any text. *)
Definition print (line : string) : M unit := fun st => (Ok tt, log (Print line) st).

(** [os.path.exists(path)]: whether the path has an entry. *)
Definition path_exists (path : string) : M bool :=
  fun st =>
    (Ok (bool_decide (is_Some (files (world st) !! path))), log (PathExists path) st).

(** [os.path.getsize(path)]: the size in bytes; [OSError] when the path
    does not exist. *)
Definition getsize (path : string) : M Z :=
  fun st =>
    (match files (world st) !! path with
     | Some data => Ok (Z.of_nat (length data))
     | None => Raise OSError
     end, log (GetSize path) st).

(** ** The script *)

(** What the process is started with.  The script reads [sys.argv] only. *)
Record Invocation : Type := {
  sys_argv : list string;
  environ : list (string * string)
}.

(** Lines 5-6: [argv = argv[argv.index("--") + 1:]]. *)
Definition script_argv (sys_argv : list string) : result (list string) :=
  bind (list_index "--" sys_argv) (fun i => Ok (slice_from (i + 1) sys_argv)).

(** Lines 5-9: the two paths, read from the arguments after the first ["--"]. *)
Definition parse_args (sys_argv : list string) : result (string * string) :=
  bind (script_argv sys_argv) (fun argv =>
  bind (getitem argv 0) (fun stl_path =>
  bind (getitem argv 1) (fun glb_path =>
  Ok (stl_path, glb_path)))).

Definition success_line (stl_path glb_path : string) : string :=
  "✅ Successfully converted " ++ stl_path ++ " to " ++ glb_path.

Definition size_line (file_size : float) : string :=
  "📦 GLB file size: " ++ format_2f file_size ++ " MB".

Definition missing_line : string := "❌ Output file not found!".

Section Script.
Context {H : Host}.

(** Lines 11-13, "Clear existing objects". *)
Definition clear_scene : M unit :=
  call (SelectAll "SELECT") (object_select_all "SELECT") ;;;
  call (Delete false) (object_delete false).

(** Lines 15-16, "Import the STL". *)
Definition import_stl (stl_path : string) : M unit :=
  call (StlImport stl_path) (wm_stl_import stl_path).

(** Lines 18-19, "Export to GLB". *)
Definition export_glb (glb_path : string) : M unit :=
  call (GltfExport glb_path "GLB") (export_scene_gltf glb_path "GLB").

(** Lines 23-27: the size of the output, or the warning that there is none. *)
Definition report_output (glb_path : string) : M unit :=
  found <- path_exists glb_path ;;
  if found then
    size <- getsize glb_path ;;
    file_size <- lift (int_truediv size (1024 * 1024)) ;;
    print (size_line file_size)
  else
    print missing_line.

(** Lines 11-27, for the two paths taken from the command line. *)
Definition convert (stl_path glb_path : string) : M unit :=
  clear_scene ;;;
  import_stl stl_path ;;;
  export_glb glb_path ;;;
  print (success_line stl_path glb_path) ;;;
  report_output glb_path.

(** The whole module body. *)
Definition main (inv : Invocation) : M unit :=
  paths <- lift (parse_args (sys_argv inv)) ;;
  convert (fst paths) (snd paths).

(** How far a conversion gets: the first host call that raises ends it
    with that exception; otherwise the report runs on what the exporter
    left. *)
Inductive conversion (s d : string) (st : State) : result unit * State -> Prop :=
| stop_select e w1 :
    object_select_all "SELECT" (world st) = Raised e w1 ->
    conversion s d st
      (Raise e, {| world := w1; trace := trace st ++ [SelectAll "SELECT"] |})
| stop_delete w1 e w2 :
    object_select_all "SELECT" (world st) = Returned w1 ->
    object_delete false w1 = Raised e w2 ->
    conversion s d st
      (Raise e, {| world := w2; trace := trace st ++ [SelectAll "SELECT"; Delete false] |})
| stop_import w1 w2 e w3 :
    object_select_all "SELECT" (world st) = Returned w1 ->
    object_delete false w1 = Returned w2 ->
    wm_stl_import s w2 = Raised e w3 ->
    conversion s d st
      (Raise e, {| world := w3;
                   trace := trace st ++ [SelectAll "SELECT"; Delete false; StlImport s] |})
| stop_export w1 w2 w3 e w4 :
    object_select_all "SELECT" (world st) = Returned w1 ->
    object_delete false w1 = Returned w2 ->
    wm_stl_import s w2 = Returned w3 ->
    export_scene_gltf d "GLB" w3 = Raised e w4 ->
    conversion s d st
      (Raise e, {| world := w4;
                   trace := trace st ++ [SelectAll "SELECT"; Delete false; StlImport s;
                                         GltfExport d "GLB"] |})
| reach_report w1 w2 w3 w4 :
    object_select_all "SELECT" (world st) = Returned w1 ->
    object_delete false w1 = Returned w2 ->
    wm_stl_import s w2 = Returned w3 ->
    export_scene_gltf d "GLB" w3 = Returned w4 ->
    conversion s d st
      (report_output d
         {| world := w4;
            trace := trace st ++ [SelectAll "SELECT"; Delete false; StlImport s;
                                  GltfExport d "GLB"; Print (success_line s d)] |}).

End Script.

(** The events a run adds to the trace it started with. *)
Definition new_events (before after : State) : list event :=
  drop (length (trace before)) (trace after).

(** The lines printed, in order. *)
Definition printed (evs : list event) : list string :=
  omap (fun ev => match ev with Print line => Some line | _ => None end) evs.

(** The host calls that are exports. *)
Definition is_export (ev : event) : bool :=
  match ev with GltfExport _ _ => true | _ => false end.

(** ** The contract of the host

    The operators are outside the repository; what the specification says
    of them is stated here as properties a host may have, and each theorem
    that needs one takes it as a hypothesis. *)

(** Modelled from the spec: the scene-clear capability of the host
    (4.1 step 1, 6 (a)), which the script reaches through two operators.
    After select_all(action='SELECT') has returned, every object of the
    scene is selected. *)
Definition selects_all (H : Host) : Prop :=
  forall w w', object_select_all "SELECT" w = Returned w' ->
    Forall (fun o => ob_select o = true) (objects w').

(** Modelled from the spec: second half of the scene-clear capability.
    After delete(use_global=False) has returned, what is left in the scene
    was there before and was not selected. *)
Definition deletes_selected (H : Host) : Prop :=
  forall w w', object_delete false w = Returned w' ->
    Forall (fun o => o ∈ objects w /\ ob_select o = false) (objects w').

(** Modelled from the spec: the exporter capability (4.1 step 3, 8):
    an export that returns has written a non-empty file at the path it
    was given. *)
Definition export_writes (H : Host) : Prop :=
  forall p fmt w w', export_scene_gltf p fmt w = Returned w' ->
    exists data, files w' !! p = Some data /\ data <> [].

(** Two outcomes that agree on what [view] shows of the world: both
    return, or both raise the same exception. *)
Definition agree {A : Type} (view : World -> A) (o1 o2 : outcome) : Prop :=
  match o1, o2 with
  | Returned w1, Returned w2 => view w1 = view w2
  | Raised e1 _, Raised e2 _ => e1 = e2
  | _, _ => False
  end.

(** Modelled from the spec: "deterministic geometry" (8, idempotence).
    On two worlds with the same scene and the same contents at [p], the
    importer produces the same scene. *)
Definition import_deterministic (H : Host) : Prop :=
  forall p w w', objects w = objects w' -> files w !! p = files w' !! p ->
    agree objects (wm_stl_import p w) (wm_stl_import p w').

(** Modelled from the spec: "deterministic encoder" (8, idempotence).
    On two worlds with the same scene, the exporter leaves the same
    contents at [p]. *)
Definition export_deterministic (H : Host) : Prop :=
  forall p fmt w w', objects w = objects w' ->
    agree (fun v => files v !! p) (export_scene_gltf p fmt w) (export_scene_gltf p fmt w').

(** ** Two concrete hosts *)

Definition set_select (b : bool) (o : Obj) : Obj :=
  {| ob_name := ob_name o; ob_select := b |}.

Definition with_objects (objs : list Obj) (w : World) : World :=
  {| objects := objs; files := files w |}.

Definition with_file (p : string) (data : list Byte.byte) (w : World) : World :=
  {| objects := objects w; files := <[p := data]> (files w) |}.

(** A container for a scene: a 12-byte header and 8 bytes per object. *)
Definition encode (objs : list Obj) : list Byte.byte :=
  repeat Byte.x00 (12 + 8 * length objs).

Definition sim_select_all (action : string) (w : World) : outcome :=
  if String.eqb action "SELECT"
  then Returned (with_objects (map (set_select true) (objects w)) w)
  else Returned w.

Definition sim_delete (use_global : bool) (w : World) : outcome :=
  Returned (with_objects (filter (fun o => ob_select o = false) (objects w)) w).

Definition sim_import (filepath : string) (w : World) : outcome :=
  match files w !! filepath with
  | Some (_ :: _) =>
      Returned (with_objects (objects w ++ [{| ob_name := filepath; ob_select := true |}]) w)
  | _ => Raised (RuntimeError "STL Import: Cannot open file") w
  end.

Definition sim_export (filepath export_format : string) (w : World) : outcome :=
  Returned (with_file filepath (encode (objects w)) w).

(** A host that honours the whole contract. *)
Definition sim_host : Host :=
  {| object_select_all := sim_select_all;
     object_delete := sim_delete;
     wm_stl_import := sim_import;
     export_scene_gltf := sim_export |}.

(** The same host with an exporter that returns without writing. *)
Definition mock_host : Host :=
  {| object_select_all := sim_select_all;
     object_delete := sim_delete;
     wm_stl_import := sim_import;
     export_scene_gltf := fun _ _ w => Returned w |}.

Definition cube : Obj := {| ob_name := "Cube"; ob_select := false |}.

Definition stl_bytes : list Byte.byte := repeat Byte.x20 84.

Definition world0 : World :=
  {| objects := [cube]; files := {[ "part.stl" := stl_bytes ]} |}.

Definition state0 : State := {| world := world0; trace := [] |}.

Definition inv0 : Invocation :=
  {| sys_argv := ["blender"; "-b"; "-P"; "convert_stl_to_fbx.py"; "--"; "part.stl"; "part.glb"];
     environ := [] |}.

(** The order of steps the specification lists (4.1): clear, import,
    export, success message, existence check, then the size or the
    warning, for the world [w] the exporter left. *)
Definition report_events (glb_path : string) (w : World) : list event :=
  match files w !! glb_path with
  | None => [PathExists glb_path; Print missing_line]
  | Some data =>
      PathExists glb_path :: GetSize glb_path ::
      match int_truediv (Z.of_nat (length data)) (1024 * 1024) with
      | Ok x => [Print (size_line x)]
      | Raise _ => []
      end
  end.

Definition script_events (stl_path glb_path : string) (w : World) : list event :=
  [SelectAll "SELECT"; Delete false; StlImport stl_path;
   GltfExport glb_path "GLB"; Print (success_line stl_path glb_path)]
  ++ report_events glb_path w.

(** An event names no path but the two of the command line: [s] where a
    source is read, [d] where the output is written and looked for. *)
Definition uses_paths (s d : string) (ev : event) : Prop :=
  match ev with
  | StlImport p => p = s
  | GltfExport p fmt => p = d /\ fmt = "GLB"
  | PathExists p | GetSize p => p = d
  | _ => True
  end.

(** A host whose exporter leaves a file of 2^53 + 2^17 + 1 bytes. *)
Definition huge_size : Z := 9007199254872065.

Definition huge_data : list Byte.byte := repeat Byte.x00 (Z.to_nat huge_size).

Definition huge_host : Host :=
  {| object_select_all := sim_select_all;
     object_delete := sim_delete;
     wm_stl_import := sim_import;
     export_scene_gltf := fun p _ w => Returned (with_file p huge_data w) |}.

(** [h] is an integer nearest to [100 * n / 1048576]: [h / 100] is
    [n / 1048576] rounded to two decimal places. *)
Definition nearest_hundredth (n h : Z) : Prop :=
  2 * Z.abs (h * 1048576 - 100 * n) <= 1048576.

(** The host calls that are imports. *)
Definition is_import (ev : event) : bool :=
  match ev with StlImport _ => true | _ => false end.

(** A host whose exporter raises: the destination cannot be written. *)
Definition readonly_host : Host :=
  {| object_select_all := sim_select_all;
     object_delete := sim_delete;
     wm_stl_import := sim_import;
     export_scene_gltf := fun _ _ w => Raised (RuntimeError "Cannot write file") w |}.

(** A host that refuses to clear the scene: select_all raises, or, with
    [at_delete], delete does. *)
Definition stuck_host (at_delete : bool) : Host :=
  {| object_select_all := fun action w =>
       if at_delete then sim_select_all action w
       else Raised (RuntimeError "select_all.poll() failed, context is incorrect") w;
     object_delete := fun _ w =>
       Raised (RuntimeError "delete.poll() failed, context is incorrect") w;
     wm_stl_import := sim_import;
     export_scene_gltf := sim_export |}.

(** * Proofs *)

(** ** Python primitives *)

Lemma round_half_even_scale c n d :
  0 < c -> 0 < d -> round_half_even (c * n) (c * d) = round_half_even n d.
Proof.
  intros Hc Hd. unfold round_half_even.
  rewrite Z.div_mul_cancel_l by lia.
  rewrite Z.mul_mod_distr_l by lia.
  replace (2 * (c * (n mod d)) ?= c * d) with (2 * (n mod d) ?= d);
    [reflexivity|].
  symmetry.
  destruct (Z.compare_spec (2 * (n mod d)) d);
    [apply Z.compare_eq_iff|apply Z.compare_lt_iff|apply Z.compare_gt_iff]; nia.
Qed.

Lemma round_half_even_exact q d :
  0 < d -> round_half_even (q * d) d = q.
Proof.
  intros Hd. unfold round_half_even.
  rewrite Z.div_mul by lia. rewrite Z.mod_mul by lia.
  assert (E : (2 * 0 ?= d) = Lt) by (apply Z.compare_lt_iff; lia).
  rewrite E. reflexivity.
Qed.

Lemma round_half_even_nearest n d :
  0 < d -> 2 * Z.abs (round_half_even n d * d - n) <= d.
Proof.
  intros Hd. unfold round_half_even.
  pose proof (Z.div_mod n d ltac:(lia)) as Hdm.
  pose proof (Z.mod_pos_bound n d Hd) as Hr.
  destruct (Z.compare_spec (2 * (n mod d)) d) as [He|Hl|Hg];
    [destruct (Z.even (n / d))|..]; nia.
Qed.

(** Ties: when [n / d] is half-way between two integers the even one is
    chosen. *)
Lemma round_half_even_tie n d :
  0 < d -> 2 * (n mod d) = d -> Z.even (round_half_even n d) = true.
Proof.
  intros Hd Ht. unfold round_half_even.
  rewrite (proj2 (Z.compare_eq_iff _ _) Ht).
  destruct (Z.even (n / d)) eqn:E; [exact E|].
  rewrite Z.even_add, E. reflexivity.
Qed.

(** Below 2^53 the quotient by 2^20 is a binary64 value: the division is
    exact. *)
Lemma int_truediv_mib n :
  0 < n < 2 ^ 53 ->
  int_truediv n (1024 * 1024)
  = Ok (Float false (n * 2 ^ (52 - Z.log2 n)) (Z.log2 n - 72)).
Proof.
  intros [Hpos Hlt].
  change (1024 * 1024) with (2 ^ 20).
  pose proof (Z.log2_spec n Hpos) as [Hlo Hhi].
  assert (HL : 0 <= Z.log2 n <= 52).
  { split; [apply Z.log2_nonneg|].
    assert (Z.log2 n < 53); [|lia].
    apply Z.log2_lt_pow2; lia. }
  unfold int_truediv.
  replace (2 ^ 20 =? 0) with false by reflexivity.
  replace (n =? 0) with false by (symmetry; apply Z.eqb_neq; lia).
  replace (n <? 0) with false by (symmetry; apply Z.ltb_ge; lia).
  replace (2 ^ 20 <? 0) with false by reflexivity.
  rewrite (Z.abs_eq n) by lia.
  replace (Z.abs (2 ^ 20)) with (2 ^ 20) by reflexivity.
  replace (Z.log2 (2 ^ 20)) with 20 by reflexivity.
  cbv zeta.
  set (L := Z.log2 n) in *.
  assert (Hbelow :
    (if 0 <=? L - 20 then n <? 2 ^ 20 * 2 ^ (L - 20)
     else n * 2 ^ (- (L - 20)) <? 2 ^ 20) = false).
  { destruct (Z.leb_spec 0 (L - 20)).
    - apply Z.ltb_ge. rewrite <- Z.pow_add_r by lia.
      replace (20 + (L - 20)) with L by lia. exact Hlo.
    - apply Z.ltb_ge.
      replace (2 ^ 20) with (2 ^ L * 2 ^ (- (L - 20))).
      + apply Z.mul_le_mono_nonneg_r; [apply Z.pow_nonneg; lia|exact Hlo].
      + rewrite <- Z.pow_add_r by lia. f_equal. lia. }
  rewrite Hbelow.
  rewrite Z.max_l by lia.
  replace (0 <=? L - 20 - 52) with false by (symmetry; apply Z.leb_gt; lia).
  replace (n * 2 ^ (- (L - 20 - 52))) with (n * 2 ^ (52 - L) * 2 ^ 20).
  2:{ rewrite <- Z.mul_assoc, <- Z.pow_add_r by lia. do 2 f_equal. lia. }
  rewrite round_half_even_exact by reflexivity.
  rewrite (Z.pow_neg_r 2 (L - 20 - 52)) by lia.
  rewrite Z.mul_0_r.
  replace (2 ^ 1024 <=? 0) with false.
  2:{ symmetry. apply Z.leb_gt. apply Z.pow_pos_nonneg; lia. }
  unfold xorb. do 2 f_equal. lia.
Qed.

(** The embedding agrees with CPython on familiar values. *)
Example truediv_tenth : int_truediv 1 10 = Ok (Float false 7205759403792794 (-56)).
Proof. reflexivity. Qed.

Example truediv_by_zero : int_truediv 5 0 = Raise ZeroDivisionError.
Proof. reflexivity. Qed.

Example format_2675 :
  bind (int_truediv 2675 1000) (fun x => Ok (format_2f x)) = Ok "2.67".
Proof. vm_compute. reflexivity. Qed.

Example format_ties :
  bind (int_truediv 1 8) (fun x => Ok (format_2f x)) = Ok "0.12"
  /\ bind (int_truediv 3 8) (fun x => Ok (format_2f x)) = Ok "0.38"
  /\ bind (int_truediv (-1) 8) (fun x => Ok (format_2f x)) = Ok "-0.12".
Proof. repeat split; vm_compute; reflexivity. Qed.

Example format_sizes :
  bind (int_truediv 2097152 (1024 * 1024)) (fun x => Ok (format_2f x)) = Ok "2.00"
  /\ bind (int_truediv 131072 (1024 * 1024)) (fun x => Ok (format_2f x)) = Ok "0.12"
  /\ bind (int_truediv 1572864 (1024 * 1024)) (fun x => Ok (format_2f x)) = Ok "1.50"
  /\ bind (int_truediv 0 (1024 * 1024)) (fun x => Ok (format_2f x)) = Ok "0.00".
Proof. repeat split; vm_compute; reflexivity. Qed.

(** ** The command line *)

Lemma list_index_app pre rest :
  "--" ∉ pre -> list_index "--" (pre ++ "--" :: rest) = Ok (length pre).
Proof.
  induction pre as [|y pre IH]; intros Hnot; [reflexivity|].
  apply not_elem_of_cons in Hnot as [Hne Hnot].
  cbn [app list_index length].
  rewrite (proj2 (String.eqb_neq y "--")) by congruence.
  rewrite IH by assumption. reflexivity.
Qed.

Lemma list_index_absent l :
  "--" ∉ l -> list_index "--" l = Raise ValueError.
Proof.
  induction l as [|y l IH]; intros Hnot; [reflexivity|].
  apply not_elem_of_cons in Hnot as [Hne Hnot].
  cbn [list_index].
  rewrite (proj2 (String.eqb_neq y "--")) by congruence.
  rewrite IH by assumption. reflexivity.
Qed.

Lemma script_argv_app pre rest :
  "--" ∉ pre -> script_argv (pre ++ "--" :: rest) = Ok rest.
Proof.
  intros Hnot. unfold script_argv, slice_from.
  rewrite list_index_app by assumption. cbn [bind]. f_equal.
  replace (length pre + 1)%nat with (length (pre ++ ["--"])).
  - rewrite (cons_middle "--" pre rest), app_assoc. apply drop_app_length.
  - rewrite length_app. reflexivity.
Qed.

Lemma script_argv_absent l :
  "--" ∉ l -> script_argv l = Raise ValueError.
Proof.
  intros Hnot. unfold script_argv. rewrite list_index_absent by assumption.
  reflexivity.
Qed.

Example parse_usual :
  parse_args (sys_argv inv0) = Ok ("part.stl", "part.glb").
Proof. reflexivity. Qed.

Example parse_first_separator :
  parse_args ["blender"; "--"; "--"; "a.stl"; "b.glb"] = Ok ("--", "a.stl").
Proof. reflexivity. Qed.

(** The two paths depend on the first two arguments after the separator
    and on nothing else. *)
Lemma getitem_take {A : Type} (l : list A) (i n : nat) :
  (i < n)%nat -> getitem (take n l) i = getitem l i.
Proof. intros Hi. unfold getitem. rewrite lookup_take_lt by assumption. reflexivity. Qed.

Lemma parse_args_take a1 a2 l1 l2 :
  script_argv a1 = Ok l1 -> script_argv a2 = Ok l2 -> take 2 l1 = take 2 l2 ->
  parse_args a1 = parse_args a2.
Proof.
  intros H1 H2 Ht. unfold parse_args. rewrite H1, H2. cbn [bind].
  rewrite <- (getitem_take l1 0 2), <- (getitem_take l1 1 2) by lia.
  rewrite <- (getitem_take l2 0 2), <- (getitem_take l2 1 2) by lia.
  rewrite Ht. reflexivity.
Qed.

(** ** Running the script *)

Lemma mbind_ok {A B : Type} (m : M A) (k : A -> M B) st a st' :
  m st = (Ok a, st') -> mbind m k st = k a st'.
Proof. intros Hm. unfold mbind. rewrite Hm. reflexivity. Qed.

Lemma mbind_raise {A B : Type} (m : M A) (k : A -> M B) st e st' :
  m st = (Raise e, st') -> mbind m k st = (Raise e, st').
Proof. intros Hm. unfold mbind. rewrite Hm. reflexivity. Qed.

Lemma call_returned ev op st w :
  op (world st) = Returned w ->
  call ev op st = (Ok tt, {| world := w; trace := trace st ++ [ev] |}).
Proof. intros Hop. unfold call. rewrite Hop. reflexivity. Qed.

Lemma call_raised ev op st e w :
  op (world st) = Raised e w ->
  call ev op st = (Raise e, {| world := w; trace := trace st ++ [ev] |}).
Proof. intros Hop. unfold call. rewrite Hop. reflexivity. Qed.

Ltac tidy_trace := rewrite <- ?app_assoc; cbn [app].

Ltac step_ok lem :=
  erewrite mbind_ok; [|apply lem; cbn [world]; eassumption]; cbn [world trace].

Ltac step_raise lem :=
  erewrite mbind_raise; [|apply lem; cbn [world]; eassumption]; cbn [world trace].

Section Runs.
Context {H : Host}.

Lemma main_parsed inv s d st :
  parse_args (sys_argv inv) = Ok (s, d) -> main inv st = convert s d st.
Proof. intros Hp. unfold main, mbind, lift. rewrite Hp. reflexivity. Qed.

Lemma main_unparsed inv e st :
  parse_args (sys_argv inv) = Raise e -> main inv st = (Raise e, st).
Proof. intros Hp. unfold main, mbind, lift. rewrite Hp. reflexivity. Qed.

Lemma clear_scene_returned st w1 w2 :
  object_select_all "SELECT" (world st) = Returned w1 ->
  object_delete false w1 = Returned w2 ->
  clear_scene st
  = (Ok tt, {| world := w2; trace := trace st ++ [SelectAll "SELECT"; Delete false] |}).
Proof.
  intros Hsel Hdel. unfold clear_scene.
  step_ok call_returned.
  erewrite call_returned by (cbn [world]; eassumption).
  cbn [world trace]. tidy_trace. reflexivity.
Qed.

(** The three steps of the pipeline, when the host returns from each. *)
Lemma pipeline_returned s d st w1 w2 w3 w4 :
  object_select_all "SELECT" (world st) = Returned w1 ->
  object_delete false w1 = Returned w2 ->
  wm_stl_import s w2 = Returned w3 ->
  export_scene_gltf d "GLB" w3 = Returned w4 ->
  convert s d st
  = report_output d
      {| world := w4;
         trace := trace st ++ [SelectAll "SELECT"; Delete false; StlImport s;
                               GltfExport d "GLB"; Print (success_line s d)] |}.
Proof.
  intros Hsel Hdel Himp Hexp. unfold convert.
  erewrite mbind_ok by (eapply clear_scene_returned; eassumption).
  unfold import_stl. step_ok call_returned.
  unfold export_glb. step_ok call_returned.
  unfold print at 1, mbind at 1, log. cbn [world trace]. tidy_trace.
  reflexivity.
Qed.

Lemma report_missing d st :
  files (world st) !! d = None ->
  report_output d st
  = (Ok tt, {| world := world st;
               trace := trace st ++ [PathExists d; Print missing_line] |}).
Proof.
  intros Hnone. unfold report_output, mbind, path_exists.
  rewrite Hnone.
  rewrite bool_decide_eq_false_2 by (intros [? ?]; discriminate).
  unfold print, log. cbn [world trace]. tidy_trace. reflexivity.
Qed.

Lemma report_present d st data :
  files (world st) !! d = Some data ->
  report_output d st
  = match int_truediv (Z.of_nat (length data)) (1024 * 1024) with
    | Ok x =>
        (Ok tt, {| world := world st;
                   trace := trace st ++ [PathExists d; GetSize d; Print (size_line x)] |})
    | Raise e =>
        (Raise e, {| world := world st;
                     trace := trace st ++ [PathExists d; GetSize d] |})
    end.
Proof.
  intros Hsome. unfold report_output, mbind, path_exists.
  rewrite Hsome.
  rewrite bool_decide_eq_true_2 by (eexists; reflexivity).
  unfold getsize, log. cbn [world trace]. rewrite Hsome.
  unfold lift.
  destruct (int_truediv (Z.of_nat (length data)) (1024 * 1024)) as [x|e];
    unfold print, log; cbn [world trace]; tidy_trace; reflexivity.
Qed.

End Runs.

Lemma new_events_app st w evs :
  new_events st {| world := w; trace := trace st ++ evs |} = evs.
Proof. unfold new_events. cbn [trace]. apply drop_app_length. Qed.

Section Cases.
Context {H : Host}.

Lemma convert_conversion s d st : conversion s d st (convert s d st).
Proof.
  destruct (object_select_all "SELECT" (world st)) as [w1|e w1] eqn:Hsel.
  2:{ replace (convert s d st) with
        (Raise (A:=unit) e, {| world := w1; trace := trace st ++ [SelectAll "SELECT"] |}).
      - apply stop_select; assumption.
      - unfold convert.
        erewrite (mbind_raise clear_scene); [reflexivity|].
        unfold clear_scene. step_raise call_raised. reflexivity. }
  destruct (object_delete false w1) as [w2|e w2] eqn:Hdel.
  2:{ replace (convert s d st) with
        (Raise (A:=unit) e,
         {| world := w2; trace := trace st ++ [SelectAll "SELECT"; Delete false] |}).
      - eapply stop_delete; eassumption.
      - unfold convert.
        erewrite (mbind_raise clear_scene); [reflexivity|].
        unfold clear_scene. step_ok call_returned.
        erewrite call_raised by (cbn [world]; eassumption).
        cbn [world trace]. tidy_trace. reflexivity. }
  destruct (wm_stl_import s w2) as [w3|e w3] eqn:Himp.
  2:{ replace (convert s d st) with
        (Raise (A:=unit) e,
         {| world := w3;
            trace := trace st ++ [SelectAll "SELECT"; Delete false; StlImport s] |}).
      - eapply stop_import; eassumption.
      - unfold convert.
        erewrite mbind_ok by (eapply clear_scene_returned; eassumption).
        unfold import_stl. step_raise call_raised. tidy_trace. reflexivity. }
  destruct (export_scene_gltf d "GLB" w3) as [w4|e w4] eqn:Hexp.
  2:{ replace (convert s d st) with
        (Raise (A:=unit) e,
         {| world := w4;
            trace := trace st ++ [SelectAll "SELECT"; Delete false; StlImport s;
                                  GltfExport d "GLB"] |}).
      - eapply stop_export; eassumption.
      - unfold convert.
        erewrite mbind_ok by (eapply clear_scene_returned; eassumption).
        unfold import_stl. step_ok call_returned.
        unfold export_glb. step_raise call_raised. tidy_trace. reflexivity. }
  erewrite pipeline_returned by eassumption.
  eapply reach_report; eassumption.
Qed.

(** The report never changes the world, and adds [report_events]. *)
Lemma report_output_events d st :
  snd (report_output d st)
  = {| world := world st; trace := trace st ++ report_events d (world st) |}.
Proof.
  unfold report_events.
  destruct (files (world st) !! d) as [data|] eqn:Hd.
  - rewrite (report_present _ _ _ Hd).
    destruct (int_truediv _ _); reflexivity.
  - rewrite (report_missing _ _ Hd). reflexivity.
Qed.

End Cases.

Ltac decide_now := apply (bool_decide_unpack _); vm_compute; exact I.

Section Order.
Context {H : Host}.

(** Whatever the host does, the events of a conversion are an initial
    part of the listed order of steps. *)
Lemma convert_events_prefix s d st :
  exists w, new_events st (snd (convert s d st)) `prefix_of` script_events s d w.
Proof.
  destruct (convert_conversion s d st); cbn [snd].
  - exists w1. rewrite new_events_app. eexists. reflexivity.
  - exists w2. rewrite new_events_app. eexists. reflexivity.
  - exists w3. rewrite new_events_app. eexists. reflexivity.
  - exists w4. rewrite new_events_app. eexists. reflexivity.
  - exists w4. rewrite report_output_events. cbn [world trace].
    rewrite <- app_assoc. rewrite new_events_app. reflexivity.
Qed.

Lemma script_events_paths s d w :
  Forall (uses_paths s d) (script_events s d w).
Proof.
  unfold script_events, report_events.
  repeat (apply Forall_cons; split; [cbn; auto|]). cbn [app].
  destruct (files w !! d) as [data|].
  - destruct (int_truediv _ _); repeat (apply Forall_cons; split; [cbn; auto|]);
      apply Forall_nil; exact I.
  - repeat (apply Forall_cons; split; [cbn; auto|]). apply Forall_nil; exact I.
Qed.

End Order.

(** ** The claims about the command line *)

(** C9: without a ["--"] on the command line the script raises
    [ValueError]; with fewer than two arguments after it, [IndexError].
    Either way nothing has run yet: the state is the initial one, so no
    clear, import or export was called. *)
Theorem bad_command_line_raises_first {H : Host} (inv : Invocation) (st : State) :
  ("--" ∉ sys_argv inv -> main inv st = (Raise ValueError, st)) /\
  (forall pre rest : list string,
     sys_argv inv = (pre ++ "--" :: rest)%list -> "--" ∉ pre -> (length rest < 2)%nat ->
     main inv st = (Raise IndexError, st)).
Proof.
  split.
  - intros Hnot. apply main_unparsed. unfold parse_args.
    rewrite script_argv_absent by assumption. reflexivity.
  - intros pre rest Hargv Hnot Hlen. apply main_unparsed. unfold parse_args.
    rewrite Hargv, script_argv_app by assumption. cbn [bind].
    destruct rest as [|a [|b rest]]; [reflexivity|reflexivity|].
    cbn [length] in Hlen. lia.
Qed.

Lemma bad_command_line_witness :
  @main sim_host {| sys_argv := ["blender"; "part.stl"; "part.glb"]; environ := [] |} state0
  = (Raise ValueError, state0)
  /\ @main sim_host {| sys_argv := ["blender"; "--"]; environ := [] |} state0
     = (Raise IndexError, state0)
  /\ @main sim_host {| sys_argv := ["blender"; "--"; "part.stl"]; environ := [] |} state0
     = (Raise IndexError, state0).
Proof.
  split; [|split].
  - apply (@bad_command_line_raises_first sim_host). cbn [sys_argv]. decide_now.
  - apply (proj2 (@bad_command_line_raises_first sim_host _ state0) ["blender"] []).
    + reflexivity.
    + decide_now.
    + cbn [length]. lia.
  - apply (proj2 (@bad_command_line_raises_first sim_host _ state0) ["blender"] ["part.stl"]).
    + reflexivity.
    + decide_now.
    + cbn [length]. lia.
Defined.

(** C8: the script takes its two inputs from the command line, after the
    first ["--"]: the first argument is the path the importer is called
    with, the second the path the exporter is called with (in format GLB)
    and the path of the file check.  For every host: once the scene is
    cleared the importer runs on [s], so that when it raises the run ends
    with its exception in the world it left; once it has returned the
    exporter runs on [d], likewise; and when both have returned the run
    ends in the world the exporter left, having performed the steps of
    [script_events s d].  The paths are used as they are spelt, whatever
    they look like; no event names another path, and neither the
    environment nor anything before the separator plays a part. *)
Theorem two_positional_arguments {H : Host}
    (pre rest : list string) (s d : string) (env : list (string * string)) (st : State) :
  "--" ∉ pre ->
  parse_args (pre ++ "--" :: s :: d :: rest) = Ok (s, d)
  /\ main {| sys_argv := pre ++ "--" :: s :: d :: rest; environ := env |} st
     = convert s d st
  /\ Forall (uses_paths s d) (new_events st (snd (convert s d st)))
  /\ (forall w1 w2 e w3,
        object_select_all "SELECT" (world st) = Returned w1 ->
        object_delete false w1 = Returned w2 ->
        wm_stl_import s w2 = Raised e w3 ->
        main {| sys_argv := pre ++ "--" :: s :: d :: rest; environ := env |} st
        = (Raise e,
           {| world := w3;
              trace := trace st ++ [SelectAll "SELECT"; Delete false; StlImport s] |}))
  /\ (forall w1 w2 w3 e w4,
        object_select_all "SELECT" (world st) = Returned w1 ->
        object_delete false w1 = Returned w2 ->
        wm_stl_import s w2 = Returned w3 ->
        export_scene_gltf d "GLB" w3 = Raised e w4 ->
        main {| sys_argv := pre ++ "--" :: s :: d :: rest; environ := env |} st
        = (Raise e,
           {| world := w4;
              trace := trace st ++ [SelectAll "SELECT"; Delete false; StlImport s;
                                    GltfExport d "GLB"] |}))
  /\ (forall w1 w2 w3 w4,
        object_select_all "SELECT" (world st) = Returned w1 ->
        object_delete false w1 = Returned w2 ->
        wm_stl_import s w2 = Returned w3 ->
        export_scene_gltf d "GLB" w3 = Returned w4 ->
        world (snd (main {| sys_argv := pre ++ "--" :: s :: d :: rest;
                            environ := env |} st)) = w4
        /\ new_events st
             (snd (main {| sys_argv := pre ++ "--" :: s :: d :: rest;
                           environ := env |} st))
           = script_events s d w4).
Proof.
  intros Hnot.
  assert (Hp : parse_args (pre ++ "--" :: s :: d :: rest) = Ok (s, d)).
  { unfold parse_args. rewrite script_argv_app by assumption. reflexivity. }
  assert (Hmain : main {| sys_argv := pre ++ "--" :: s :: d :: rest; environ := env |} st
                  = convert s d st) by (apply main_parsed; exact Hp).
  rewrite Hmain.
  split; [exact Hp|]. split; [reflexivity|]. split; [|split; [|split]].
  - destruct (convert_events_prefix s d st) as [w [tail Hw]].
    pose proof (script_events_paths s d w) as Hall.
    rewrite Hw in Hall. apply Forall_app in Hall. apply Hall.
  - intros w1 w2 e w3 Hsel Hdel Himp. unfold convert.
    erewrite mbind_ok by (eapply clear_scene_returned; eassumption).
    unfold import_stl. step_raise call_raised. tidy_trace. reflexivity.
  - intros w1 w2 w3 e w4 Hsel Hdel Himp Hexp. unfold convert.
    erewrite mbind_ok by (eapply clear_scene_returned; eassumption).
    unfold import_stl. step_ok call_returned.
    unfold export_glb. step_raise call_raised. tidy_trace. reflexivity.
  - intros w1 w2 w3 w4 Hsel Hdel Himp Hexp.
    rewrite (pipeline_returned s d st w1 w2 w3 w4) by assumption.
    rewrite report_output_events. cbn [snd world trace].
    split; [reflexivity|].
    rewrite <- app_assoc, new_events_app. reflexivity.
Qed.

Lemma two_positional_arguments_witness :
  parse_args (["blender"; "-b"] ++ "--" :: "--in.stl" :: "-o" :: ["--"; "x"])
  = Ok ("--in.stl", "-o")
  /\ world (snd (@main sim_host
                   {| sys_argv := ["blender"; "-b"] ++ "--" :: "--in.stl" :: "-o" :: ["--"; "x"];
                      environ := [("BLENDER_USER_SCRIPTS", "/tmp")] |}
                   {| world := {| objects := [cube];
                                  files := {[ "--in.stl" := stl_bytes ]} |};
                      trace := [] |}))
     = with_file "-o" (encode [{| ob_name := "--in.stl"; ob_select := true |}])
         {| objects := [{| ob_name := "--in.stl"; ob_select := true |}];
            files := {[ "--in.stl" := stl_bytes ]} |}
  /\ new_events
       {| world := {| objects := [cube]; files := {[ "--in.stl" := stl_bytes ]} |};
          trace := [] |}
       (snd (@main sim_host
               {| sys_argv := ["blender"; "-b"] ++ "--" :: "--in.stl" :: "-o" :: ["--"; "x"];
                  environ := [("BLENDER_USER_SCRIPTS", "/tmp")] |}
               {| world := {| objects := [cube];
                              files := {[ "--in.stl" := stl_bytes ]} |};
                  trace := [] |}))
     = script_events "--in.stl" "-o"
         (with_file "-o" (encode [{| ob_name := "--in.stl"; ob_select := true |}])
            {| objects := [{| ob_name := "--in.stl"; ob_select := true |}];
               files := {[ "--in.stl" := stl_bytes ]} |}).
Proof.
  destruct (@two_positional_arguments sim_host ["blender"; "-b"] ["--"; "x"]
              "--in.stl" "-o" [("BLENDER_USER_SCRIPTS", "/tmp")]
              {| world := {| objects := [cube]; files := {[ "--in.stl" := stl_bytes ]} |};
                 trace := [] |}
              ltac:(decide_now))
    as (Hp & _ & _ & _ & _ & Hrun).
  destruct (Hrun
              {| objects := [set_select true cube];
                 files := {[ "--in.stl" := stl_bytes ]} |}
              {| objects := []; files := {[ "--in.stl" := stl_bytes ]} |}
              {| objects := [{| ob_name := "--in.stl"; ob_select := true |}];
                 files := {[ "--in.stl" := stl_bytes ]} |}
              (with_file "-o" (encode [{| ob_name := "--in.stl"; ob_select := true |}])
                 {| objects := [{| ob_name := "--in.stl"; ob_select := true |}];
                    files := {[ "--in.stl" := stl_bytes ]} |})
              eq_refl eq_refl eq_refl eq_refl) as [Hworld Hevents].
  split; [exact Hp|]. split; [exact Hworld|exact Hevents].
Defined.

(** C10: two command lines whose arguments after the first ["--"] agree
    on the first two give the same run, result and final state alike:
    what precedes the separator, what follows the second argument and the
    environment make no difference. *)
Theorem trailing_arguments_ignored {H : Host}
    (inv1 inv2 : Invocation) (l1 l2 : list string) (st : State) :
  script_argv (sys_argv inv1) = Ok l1 ->
  script_argv (sys_argv inv2) = Ok l2 ->
  take 2 l1 = take 2 l2 ->
  main inv1 st = main inv2 st.
Proof.
  intros H1 H2 Ht. unfold main.
  rewrite (parse_args_take _ _ _ _ H1 H2 Ht). reflexivity.
Qed.

Lemma trailing_arguments_witness :
  @main sim_host inv0 state0
  = @main sim_host
      {| sys_argv := ["blender"; "--"; "part.stl"; "part.glb"; "--verbose"; "extra"];
         environ := [("HOME", "/root")] |} state0.
Proof.
  apply (@trailing_arguments_ignored sim_host inv0 _
           ["part.stl"; "part.glb"]
           ["part.stl"; "part.glb"; "--verbose"; "extra"]);
    reflexivity.
Defined.

(** ** The claims about the run *)

Ltac same_outcome :=
  repeat match goal with
  | H1 : ?x = Returned _, H2 : ?x = Raised _ _ |- _ => rewrite H1 in H2; discriminate H2
  | H1 : ?x = Returned ?a, H2 : ?x = Returned ?b |- _ =>
      rewrite H1 in H2; injection H2 as ?; subst b
  | H1 : ?x = Raised ?e ?a, H2 : ?x = Raised ?f ?b |- _ =>
      rewrite H1 in H2; injection H2 as ? ?; subst f; subst b
  end.

Lemma missing_line_distinct x : missing_line <> size_line x.
Proof. unfold missing_line, size_line. cbn [String.append]. discriminate. Qed.

(** C4: when the importer raises (the source is missing, unreadable or
    not valid), the run ends there with that exception: nothing catches
    it, the exporter is never called, and the world is as the importer
    left it. *)
Theorem import_failure_stops_before_export {H : Host}
    (inv : Invocation) (s d : string) (st : State) (w1 w2 w3 : World) (e : exn) :
  parse_args (sys_argv inv) = Ok (s, d) ->
  object_select_all "SELECT" (world st) = Returned w1 ->
  object_delete false w1 = Returned w2 ->
  wm_stl_import s w2 = Raised e w3 ->
  main inv st
  = (Raise e, {| world := w3;
                 trace := trace st ++ [SelectAll "SELECT"; Delete false; StlImport s] |})
  /\ Forall (fun ev => is_export ev = false) (new_events st (snd (main inv st))).
Proof.
  intros Hp Hsel Hdel Himp. rewrite (main_parsed _ _ _ _ Hp).
  destruct (convert_conversion s d st); same_outcome.
  split; [reflexivity|]. cbn [snd]. rewrite new_events_app.
  repeat constructor.
Qed.

Lemma import_failure_witness :
  @main sim_host
    {| sys_argv := ["blender"; "--"; "absent.stl"; "part.glb"]; environ := [] |} state0
  = (Raise (RuntimeError "STL Import: Cannot open file"),
     {| world := with_objects [] world0;
        trace := [SelectAll "SELECT"; Delete false; StlImport "absent.stl"] |})
  /\ Forall (fun ev => is_export ev = false)
       (new_events state0
          (snd (@main sim_host
                  {| sys_argv := ["blender"; "--"; "absent.stl"; "part.glb"];
                     environ := [] |} state0))).
Proof.
  apply (@import_failure_stops_before_export sim_host _ "absent.stl" "part.glb" state0
           (with_objects [set_select true cube] world0) (with_objects [] world0));
    reflexivity.
Defined.

(** C1: when the exporter has returned and the destination does not
    exist, the run prints the warning, which no size report equals, and
    returns normally.  It is the one failure the script handles: a run
    returns normally only if the command line parsed and every host call
    returned. *)
Theorem missing_output_is_reported {H : Host}
    (inv : Invocation) (s d : string) (st : State) (w1 w2 w3 w4 : World) :
  parse_args (sys_argv inv) = Ok (s, d) ->
  object_select_all "SELECT" (world st) = Returned w1 ->
  object_delete false w1 = Returned w2 ->
  wm_stl_import s w2 = Returned w3 ->
  export_scene_gltf d "GLB" w3 = Returned w4 ->
  files w4 !! d = None ->
  main inv st
  = (Ok tt,
     {| world := w4;
        trace := trace st ++ [SelectAll "SELECT"; Delete false; StlImport s;
                              GltfExport d "GLB"; Print (success_line s d);
                              PathExists d; Print missing_line] |})
  /\ (forall x, missing_line <> size_line x)
  /\ (forall inv' st' st'',
        main inv' st' = (Ok tt, st'') ->
        exists s' d' v1 v2 v3,
          parse_args (sys_argv inv') = Ok (s', d')
          /\ object_select_all "SELECT" (world st') = Returned v1
          /\ object_delete false v1 = Returned v2
          /\ wm_stl_import s' v2 = Returned v3
          /\ export_scene_gltf d' "GLB" v3 = Returned (world st'')).
Proof.
  intros Hp Hsel Hdel Himp Hexp Hnone. split; [|split].
  - rewrite (main_parsed _ _ _ _ Hp).
    rewrite (pipeline_returned s d st w1 w2 w3 w4) by assumption.
    rewrite report_missing by exact Hnone.
    cbn [world trace]. tidy_trace. reflexivity.
  - apply missing_line_distinct.
  - intros inv' st' st'' Hrun.
    destruct (parse_args (sys_argv inv')) as [[s' d']|e] eqn:Hp'.
    2:{ rewrite (main_unparsed _ _ _ Hp') in Hrun. discriminate Hrun. }
    rewrite (main_parsed _ _ _ _ Hp') in Hrun.
    destruct (convert_conversion s' d' st') as [| | | |v1 v2 v3 v4 ? ? ? ?];
      try discriminate Hrun.
    exists s', d', v1, v2, v3.
    assert (Hw : world st'' = v4).
    { apply (f_equal snd) in Hrun. rewrite report_output_events in Hrun.
      cbn [snd] in Hrun. rewrite <- Hrun. reflexivity. }
    rewrite Hw. auto.
Qed.

Lemma missing_output_witness :
  @main mock_host inv0 state0
  = (Ok tt,
     {| world := with_objects [{| ob_name := "part.stl"; ob_select := true |}] world0;
        trace := [SelectAll "SELECT"; Delete false; StlImport "part.stl";
                  GltfExport "part.glb" "GLB";
                  Print "✅ Successfully converted part.stl to part.glb";
                  PathExists "part.glb"; Print "❌ Output file not found!"] |}).
Proof.
  apply (@missing_output_is_reported mock_host inv0 "part.stl" "part.glb" state0
           (with_objects [set_select true cube] world0)
           (with_objects [] world0)
           (with_objects [{| ob_name := "part.stl"; ob_select := true |}] world0)
           (with_objects [{| ob_name := "part.stl"; ob_select := true |}] world0));
    reflexivity.
Defined.

(** C5: the steps run in the listed order: select and delete (the clear),
    import from the source path, export to the destination path, the
    success message naming both paths, and only then the existence check.
    Every run performs an initial part of that sequence; when the host
    calls all return it performs all of it, so the success message is
    printed before the check and also when the check finds nothing. *)
Theorem steps_run_in_order {H : Host}
    (inv : Invocation) (s d : string) (st : State) :
  parse_args (sys_argv inv) = Ok (s, d) ->
  success_line s d = "✅ Successfully converted " ++ s ++ " to " ++ d
  /\ (exists w, new_events st (snd (main inv st)) `prefix_of` script_events s d w)
  /\ (forall w1 w2 w3 w4,
        object_select_all "SELECT" (world st) = Returned w1 ->
        object_delete false w1 = Returned w2 ->
        wm_stl_import s w2 = Returned w3 ->
        export_scene_gltf d "GLB" w3 = Returned w4 ->
        (exists tail,
           new_events st (snd (main inv st))
           = ([SelectAll "SELECT"; Delete false; StlImport s; GltfExport d "GLB";
               Print (success_line s d); PathExists d] ++ tail)%list)
        /\ (files w4 !! d = None ->
            printed (new_events st (snd (main inv st)))
            = [success_line s d; missing_line])).
Proof.
  intros Hp. rewrite (main_parsed _ _ _ _ Hp).
  split; [reflexivity|]. split; [apply convert_events_prefix|].
  intros w1 w2 w3 w4 Hsel Hdel Himp Hexp.
  rewrite (pipeline_returned s d st w1 w2 w3 w4) by assumption.
  rewrite report_output_events. cbn [snd world trace].
  rewrite <- app_assoc, new_events_app. unfold report_events. split.
  - destruct (files w4 !! d) as [data|]; eexists; reflexivity.
  - intros Hnone. rewrite Hnone. reflexivity.
Qed.

Lemma steps_run_in_order_witness :
  (exists tail,
     new_events state0 (snd (@main mock_host inv0 state0))
     = ([SelectAll "SELECT"; Delete false; StlImport "part.stl";
         GltfExport "part.glb" "GLB";
         Print (success_line "part.stl" "part.glb"); PathExists "part.glb"] ++ tail)%list)
  /\ printed (new_events state0 (snd (@main mock_host inv0 state0)))
     = ["✅ Successfully converted part.stl to part.glb"; "❌ Output file not found!"].
Proof.
  pose proof (@steps_run_in_order mock_host inv0 "part.stl" "part.glb" state0 eq_refl)
    as [_ [_ Hall]].
  destruct (Hall (with_objects [set_select true cube] world0)
                 (with_objects [] world0)
                 (with_objects [{| ob_name := "part.stl"; ob_select := true |}] world0)
                 (with_objects [{| ob_name := "part.stl"; ob_select := true |}] world0)
                 eq_refl eq_refl eq_refl eq_refl) as [Hseq Hmiss].
  split; [exact Hseq|]. apply Hmiss. reflexivity.
Defined.

(** ** The size report *)

(** Below 2^53 bytes the megabyte value is exact, so the two decimals
    printed are those of [size / 1048576] itself. *)
Lemma size_line_exact n :
  0 <= n < 2 ^ 53 ->
  exists x,
    int_truediv n (1024 * 1024) = Ok x
    /\ size_line x
       = "📦 GLB file size: " ++ fixed2 (round_half_even (100 * n) 1048576) ++ " MB".
Proof.
  intros [Hlo Hhi].
  destruct (Z.eq_dec n 0) as [->|Hne].
  { eexists. split; reflexivity. }
  rewrite int_truediv_mib by lia.
  eexists. split; [reflexivity|].
  unfold size_line, format_2f, hundredths. cbn [sign mant expo].
  pose proof (Z.log2_nonneg n) as HL0.
  assert (HL : Z.log2 n < 53) by (apply Z.log2_lt_pow2; lia).
  replace (0 <=? Z.log2 n - 72) with false by (symmetry; apply Z.leb_gt; lia).
  replace (100 * (n * 2 ^ (52 - Z.log2 n)))
    with (2 ^ (52 - Z.log2 n) * (100 * n)) by ring.
  replace (2 ^ (- (Z.log2 n - 72))) with (2 ^ (52 - Z.log2 n) * 1048576).
  2:{ change 1048576 with (2 ^ 20). rewrite <- Z.pow_add_r by lia. f_equal. lia. }
  rewrite round_half_even_scale by (try apply Z.pow_pos_nonneg; lia).
  reflexivity.
Qed.

(** C2, amended: for a destination of [n] bytes, [n] below 2^53, the run
    reports [n / 1048576] rounded to two decimal places: the number of
    hundredths printed is a nearest one (the even one when two are
    equally near); a file of 2,097,152 bytes is reported as 2.00 MB. *)
Theorem reported_size_is_rounded {H : Host}
    (inv : Invocation) (s d : string) (st : State) (w1 w2 w3 w4 : World)
    (data : list Byte.byte) :
  parse_args (sys_argv inv) = Ok (s, d) ->
  object_select_all "SELECT" (world st) = Returned w1 ->
  object_delete false w1 = Returned w2 ->
  wm_stl_import s w2 = Returned w3 ->
  export_scene_gltf d "GLB" w3 = Returned w4 ->
  files w4 !! d = Some data ->
  Z.of_nat (length data) < 2 ^ 53 ->
  nearest_hundredth (Z.of_nat (length data))
    (round_half_even (100 * Z.of_nat (length data)) 1048576)
  /\ main inv st
     = (Ok tt,
        {| world := w4;
           trace := trace st ++ [SelectAll "SELECT"; Delete false; StlImport s;
                                 GltfExport d "GLB"; Print (success_line s d);
                                 PathExists d; GetSize d;
                                 Print ("📦 GLB file size: "
                                        ++ fixed2 (round_half_even
                                                     (100 * Z.of_nat (length data)) 1048576)
                                        ++ " MB")] |})
  /\ (Z.of_nat (length data) = 2097152 ->
      fixed2 (round_half_even (100 * Z.of_nat (length data)) 1048576) = "2.00")
  /\ (2 * ((100 * Z.of_nat (length data)) mod 1048576) = 1048576 ->
      Z.even (round_half_even (100 * Z.of_nat (length data)) 1048576) = true).
Proof.
  intros Hp Hsel Hdel Himp Hexp Hsome Hsmall. split; [|split; [|split]].
  4:{ apply round_half_even_tie. reflexivity. }
  - unfold nearest_hundredth. apply round_half_even_nearest. reflexivity.
  - rewrite (main_parsed _ _ _ _ Hp).
    rewrite (pipeline_returned s d st w1 w2 w3 w4) by assumption.
    erewrite report_present by (cbn [world]; exact Hsome).
    destruct (size_line_exact (Z.of_nat (length data)) ltac:(lia)) as [x [Hx Hline]].
    rewrite Hx, Hline. cbn [world trace]. tidy_trace. reflexivity.
  - intros ->. vm_compute. reflexivity.
Qed.

Lemma reported_size_witness :
  nearest_hundredth 20 0
  /\ @main sim_host inv0 state0
     = (Ok tt,
        {| world :=
             with_file "part.glb" (repeat Byte.x00 20)
               (with_objects [{| ob_name := "part.stl"; ob_select := true |}] world0);
           trace := [SelectAll "SELECT"; Delete false; StlImport "part.stl";
                     GltfExport "part.glb" "GLB";
                     Print "✅ Successfully converted part.stl to part.glb";
                     PathExists "part.glb"; GetSize "part.glb";
                     Print "📦 GLB file size: 0.00 MB"] |}).
Proof.
  pose proof (@reported_size_is_rounded sim_host inv0 "part.stl" "part.glb" state0
    (with_objects [set_select true cube] world0)
    (with_objects [] world0)
    (with_objects [{| ob_name := "part.stl"; ob_select := true |}] world0)
    (with_file "part.glb" (repeat Byte.x00 20)
       (with_objects [{| ob_name := "part.stl"; ob_select := true |}] world0))
    (repeat Byte.x00 20)
    eq_refl eq_refl eq_refl eq_refl eq_refl eq_refl eq_refl) as [Hnear [Hrun _]].
  split; [exact Hnear|exact Hrun].
Defined.

Lemma huge_run :
  @main huge_host inv0 state0
  = (Ok tt,
     {| world :=
          with_file "part.glb" huge_data
            (with_objects [{| ob_name := "part.stl"; ob_select := true |}] world0);
        trace := [SelectAll "SELECT"; Delete false; StlImport "part.stl";
                  GltfExport "part.glb" "GLB";
                  Print "✅ Successfully converted part.stl to part.glb";
                  PathExists "part.glb"; GetSize "part.glb";
                  Print "📦 GLB file size: 8589934592.12 MB"] |}).
Proof.
  rewrite (@main_parsed huge_host inv0 "part.stl" "part.glb" state0 eq_refl).
  rewrite (@pipeline_returned huge_host "part.stl" "part.glb" state0
             (with_objects [set_select true cube] world0)
             (with_objects [] world0)
             (with_objects [{| ob_name := "part.stl"; ob_select := true |}] world0)
             (with_file "part.glb" huge_data
                (with_objects [{| ob_name := "part.stl"; ob_select := true |}] world0))
             eq_refl eq_refl eq_refl eq_refl).
  erewrite (report_present "part.glb" _ huge_data)
    by (cbn [world with_file files]; apply lookup_insert_eq).
  unfold huge_data at 1. rewrite repeat_length, Z2Nat.id by (unfold huge_size; lia).
  replace (int_truediv huge_size (1024 * 1024))
    with (Ok (Float false 4503599627436032 (-19))) by (vm_compute; reflexivity).
  cbn [world trace state0 app]. do 3 f_equal.
Qed.

(** C2 as stated fails for a destination of 2^53 + 2^17 + 1 bytes: the
    quotient 8589934592.125000953... is first rounded to the binary64
    value 8589934592.125, which is printed as 8589934592.12, while the
    nearest number with two decimals is 8589934592.13. *)
Lemma huge_file_misreported :
  files (world (snd (@main huge_host inv0 state0))) !! "part.glb" = Some huge_data
  /\ Z.of_nat (length huge_data) = 9007199254872065
  /\ printed (new_events state0 (snd (@main huge_host inv0 state0)))
     = ["✅ Successfully converted part.stl to part.glb";
        "📦 GLB file size: 8589934592.12 MB"]
  /\ fixed2 858993459212 = "8589934592.12"
  /\ ~ nearest_hundredth 9007199254872065 858993459212
  /\ nearest_hundredth 9007199254872065 858993459213.
Proof.
  rewrite huge_run. cbn [snd world trace].
  split; [apply lookup_insert_eq|].
  split; [unfold huge_data; rewrite repeat_length; apply Z2Nat.id; unfold huge_size; lia|].
  split; [reflexivity|].
  split; [vm_compute; reflexivity|].
  unfold nearest_hundredth. split; lia.
Qed.

(** ** The simulated host honours the contract *)

Lemma sim_selects_all : selects_all sim_host.
Proof.
  intros w w' Hsel. cbn in Hsel. injection Hsel as <-. cbn [objects with_objects].
  apply Forall_forall. intros o Ho. apply list_elem_of_fmap in Ho as [o' [-> _]].
  reflexivity.
Qed.

Lemma sim_deletes_selected : deletes_selected sim_host.
Proof.
  intros w w' Hdel. cbn in Hdel. injection Hdel as <-. cbn [objects with_objects].
  apply Forall_forall. intros o Ho. apply list_elem_of_filter in Ho as [Hs Ho].
  split; assumption.
Qed.

Lemma sim_export_writes : export_writes sim_host.
Proof.
  intros p fmt w w' Hexp. cbn in Hexp. injection Hexp as <-.
  exists (encode (objects w)). split.
  - cbn [files with_file]. apply lookup_insert_eq.
  - unfold encode. discriminate.
Qed.

Lemma sim_import_deterministic : import_deterministic sim_host.
Proof.
  intros p w w' Hobj Hfile. cbn [wm_stl_import sim_host]. unfold sim_import.
  rewrite Hfile, Hobj.
  destruct (files w' !! p) as [[|b data]|]; cbn [agree objects with_objects]; reflexivity.
Qed.

Lemma sim_export_deterministic : export_deterministic sim_host.
Proof.
  intros p fmt w w' Hobj. cbn [export_scene_gltf sim_host]. unfold sim_export.
  cbn [agree files with_file]. rewrite !lookup_insert_eq, Hobj. reflexivity.
Qed.

(** ** The claims that rest on the host's contract *)

Section Contract.
Context {H : Host}.

Lemma clear_empties w w1 w2 :
  selects_all H -> deletes_selected H ->
  object_select_all "SELECT" w = Returned w1 ->
  object_delete false w1 = Returned w2 ->
  objects w2 = [].
Proof.
  intros Hall Hgone Hsel Hdel.
  pose proof (Hall _ _ Hsel) as Hon. pose proof (Hgone _ _ Hdel) as Hoff.
  destruct (objects w2) as [|o objs]; [reflexivity|].
  apply Forall_cons in Hoff as [[Hin Hfalse] _].
  rewrite Forall_forall in Hon. rewrite (Hon o Hin) in Hfalse. discriminate.
Qed.

Lemma report_events_same d w w' :
  files w !! d = files w' !! d -> report_events d w = report_events d w'.
Proof. intros Heq. unfold report_events. rewrite Heq. reflexivity. Qed.

Lemma report_output_same d st st' :
  files (world st) !! d = files (world st') !! d ->
  fst (report_output d st) = fst (report_output d st').
Proof.
  intros Heq.
  destruct (files (world st') !! d) as [data|] eqn:Hd.
  - rewrite (report_present d st data Heq), (report_present d st' data Hd).
    destruct (int_truediv _ _); reflexivity.
  - rewrite (report_missing d st Heq), (report_missing d st' Hd). reflexivity.
Qed.

End Contract.

(** C3: for a host whose select-all reaches every object of the scene and
    whose delete removes what is selected, the import runs on an empty
    scene: once the two clearing calls have returned, no object is left,
    whatever the scene held before, and the rest of the script, which
    begins with the import, continues from that world; the exporter then
    runs on what the importer made of it. *)
Theorem scene_empty_before_import {H : Host}
    (inv : Invocation) (s d : string) (st : State) (w1 w2 : World) :
  selects_all H -> deletes_selected H ->
  parse_args (sys_argv inv) = Ok (s, d) ->
  object_select_all "SELECT" (world st) = Returned w1 ->
  object_delete false w1 = Returned w2 ->
  objects w2 = []
  /\ main inv st
     = (import_stl s ;;; export_glb d ;;; print (success_line s d) ;;; report_output d)
         {| world := w2; trace := trace st ++ [SelectAll "SELECT"; Delete false] |}
  /\ (forall w3,
        wm_stl_import s w2 = Returned w3 ->
        main inv st
        = (export_glb d ;;; print (success_line s d) ;;; report_output d)
            {| world := w3;
               trace := trace st ++ [SelectAll "SELECT"; Delete false; StlImport s] |}).
Proof.
  intros Hall Hgone Hp Hsel Hdel.
  split; [exact (clear_empties _ _ _ Hall Hgone Hsel Hdel)|].
  rewrite (main_parsed _ _ _ _ Hp). unfold convert.
  erewrite mbind_ok by (eapply clear_scene_returned; eassumption).
  split; [reflexivity|].
  intros w3 Himp. unfold import_stl. step_ok call_returned. tidy_trace. reflexivity.
Qed.

Lemma scene_empty_witness :
  objects (with_objects [] world0) = []
  /\ @main sim_host inv0 state0
     = (@import_stl sim_host "part.stl" ;;; @export_glb sim_host "part.glb" ;;;
        print (success_line "part.stl" "part.glb") ;;; report_output "part.glb")
         {| world := with_objects [] world0;
            trace := trace state0 ++ [SelectAll "SELECT"; Delete false] |}.
Proof.
  pose proof (@scene_empty_before_import sim_host inv0 "part.stl" "part.glb" state0
                (with_objects [set_select true cube] world0) (with_objects [] world0)
                sim_selects_all sim_deletes_selected eq_refl eq_refl eq_refl)
    as [Hempty [Hrest _]].
  split; [exact Hempty|exact Hrest].
Defined.

(** C6, amended: for a valid source, when the exporter returns and has
    honoured its contract (an export that returns has written a non-empty
    file at the path it was given), the destination exists and is
    non-empty after the export step, is still there when the run ends,
    and the check goes on to report its size. *)
Theorem export_produces_output {H : Host}
    (inv : Invocation) (s d : string) (st : State) (w1 w2 w3 w4 : World) :
  export_writes H ->
  parse_args (sys_argv inv) = Ok (s, d) ->
  object_select_all "SELECT" (world st) = Returned w1 ->
  object_delete false w1 = Returned w2 ->
  wm_stl_import s w2 = Returned w3 ->
  export_scene_gltf d "GLB" w3 = Returned w4 ->
  exists data,
    files w4 !! d = Some data /\ data <> []
    /\ world (snd (main inv st)) = w4
    /\ exists tail,
         new_events st (snd (main inv st))
         = ([SelectAll "SELECT"; Delete false; StlImport s; GltfExport d "GLB";
             Print (success_line s d); PathExists d; GetSize d] ++ tail)%list.
Proof.
  intros Hwrites Hp Hsel Hdel Himp Hexp.
  destruct (Hwrites _ _ _ _ Hexp) as [data [Hsome Hne]].
  exists data. split; [exact Hsome|]. split; [exact Hne|].
  rewrite (main_parsed _ _ _ _ Hp).
  rewrite (pipeline_returned s d st w1 w2 w3 w4) by assumption.
  rewrite report_output_events. cbn [snd world trace].
  split; [reflexivity|].
  rewrite <- app_assoc, new_events_app. unfold report_events. rewrite Hsome.
  eexists. reflexivity.
Qed.

Lemma export_produces_output_witness :
  exists data,
    files (with_file "part.glb" (encode [{| ob_name := "part.stl"; ob_select := true |}])
             (with_objects [{| ob_name := "part.stl"; ob_select := true |}] world0))
      !! "part.glb" = Some data
    /\ data <> []
    /\ world (snd (@main sim_host inv0 state0))
       = with_file "part.glb" (encode [{| ob_name := "part.stl"; ob_select := true |}])
           (with_objects [{| ob_name := "part.stl"; ob_select := true |}] world0)
    /\ exists tail,
         new_events state0 (snd (@main sim_host inv0 state0))
         = ([SelectAll "SELECT"; Delete false; StlImport "part.stl";
             GltfExport "part.glb" "GLB"; Print (success_line "part.stl" "part.glb");
             PathExists "part.glb"; GetSize "part.glb"] ++ tail)%list.
Proof.
  apply (@export_produces_output sim_host inv0 "part.stl" "part.glb" state0
           (with_objects [set_select true cube] world0)
           (with_objects [] world0)
           (with_objects [{| ob_name := "part.stl"; ob_select := true |}] world0));
    [exact sim_export_writes|reflexivity..].
Defined.

(** C6 as stated fails when the exporter returns without creating the
    file at the destination, the case the script's own warning is for:
    the source is valid (the importer returns), the run completes, and
    no destination exists. *)
Lemma export_without_output :
  @wm_stl_import mock_host "part.stl" (with_objects [] world0)
  = Returned (with_objects [{| ob_name := "part.stl"; ob_select := true |}] world0)
  /\ fst (@main mock_host inv0 state0) = Ok tt
  /\ files (world (snd (@main mock_host inv0 state0))) !! "part.glb" = None
  /\ printed (new_events state0 (snd (@main mock_host inv0 state0)))
     = ["✅ Successfully converted part.stl to part.glb"; "❌ Output file not found!"].
Proof. repeat split; vm_compute; reflexivity. Qed.

Section Repeat.
Context {H : Host}.

(** Two conversions of the same paths, from any two states, behave alike
    as soon as their imports see the same source. *)
Lemma convert_same s d stA stB a1 a2 b1 b2 :
  selects_all H -> deletes_selected H ->
  import_deterministic H -> export_deterministic H ->
  object_select_all "SELECT" (world stA) = Returned a1 ->
  object_delete false a1 = Returned a2 ->
  object_select_all "SELECT" (world stB) = Returned b1 ->
  object_delete false b1 = Returned b2 ->
  files a2 !! s = files b2 !! s ->
  fst (convert s d stA) = fst (convert s d stB)
  /\ new_events stA (snd (convert s d stA)) = new_events stB (snd (convert s d stB))
  /\ (fst (convert s d stA) = Ok tt ->
      files (world (snd (convert s d stA))) !! d
      = files (world (snd (convert s d stB))) !! d).
Proof.
  intros Hall Hgone Hidet Hedet HselA HdelA HselB HdelB Hsrc.
  pose proof (clear_empties _ _ _ Hall Hgone HselA HdelA) as Ha.
  pose proof (clear_empties _ _ _ Hall Hgone HselB HdelB) as Hb.
  pose proof (Hidet s a2 b2 (eq_trans Ha (eq_sym Hb)) Hsrc) as Hi.
  destruct (convert_conversion s d stA) as
    [? ? ?|? ? ? ? ?|? ? e3 a3 ? ? HiA|? ? a3 e4 a4 ? ? HiA HeA|? ? a3 a4 ? ? HiA HeA];
    same_outcome;
    destruct (convert_conversion s d stB) as
      [? ? ?|? ? ? ? ?|? ? f3 b3 ? ? HiB|? ? b3 f4 b4 ? ? HiB HeB|? ? b3 b4 ? ? HiB HeB];
    same_outcome;
    rewrite HiA, HiB in Hi; cbn [agree] in Hi; try contradiction.
  - subst f3. cbn [fst snd]. rewrite !new_events_app.
    split; [reflexivity|]. split; [reflexivity|]. discriminate.
  - pose proof (Hedet d "GLB" a3 b3 Hi) as He.
    rewrite HeA, HeB in He. cbn [agree] in He. subst f4.
    cbn [fst snd]. rewrite !new_events_app.
    split; [reflexivity|]. split; [reflexivity|]. discriminate.
  - pose proof (Hedet d "GLB" a3 b3 Hi) as He.
    rewrite HeA, HeB in He. cbn [agree] in He. contradiction.
  - pose proof (Hedet d "GLB" a3 b3 Hi) as He.
    rewrite HeA, HeB in He. cbn [agree] in He. contradiction.
  - pose proof (Hedet d "GLB" a3 b3 Hi) as He.
    rewrite HeA, HeB in He. cbn [agree] in He.
    split; [apply report_output_same; exact He|].
    rewrite !report_output_events. cbn [world trace].
    rewrite <- !app_assoc, !new_events_app.
    rewrite (report_events_same d a4 b4 He).
    split; [reflexivity|]. intros _. exact He.
Qed.

End Repeat.

(** C7: for a host that clears the scene and whose importer and exporter
    are deterministic, converting the same pair of paths a second time,
    with the source as it was, gives the same result, the same calls and
    the same printed lines, the reported size among them, and leaves at
    the destination the contents the first conversion left. *)
Theorem conversion_repeatable {H : Host}
    (s d : string) (st : State) (a1 a2 b1 b2 : World) :
  selects_all H -> deletes_selected H ->
  import_deterministic H -> export_deterministic H ->
  object_select_all "SELECT" (world st) = Returned a1 ->
  object_delete false a1 = Returned a2 ->
  object_select_all "SELECT" (world (snd (convert s d st))) = Returned b1 ->
  object_delete false b1 = Returned b2 ->
  files a2 !! s = files b2 !! s ->
  fst (convert s d (snd (convert s d st))) = fst (convert s d st)
  /\ new_events (snd (convert s d st)) (snd (convert s d (snd (convert s d st))))
     = new_events st (snd (convert s d st))
  /\ (fst (convert s d st) = Ok tt ->
      files (world (snd (convert s d (snd (convert s d st))))) !! d
      = files (world (snd (convert s d st))) !! d).
Proof.
  intros Hall Hgone Hidet Hedet HselA HdelA HselB HdelB Hsrc.
  destruct (convert_same s d st (snd (convert s d st)) a1 a2 b1 b2
              Hall Hgone Hidet Hedet HselA HdelA HselB HdelB Hsrc) as [Hres [Hev Hdst]].
  split; [symmetry; exact Hres|]. split; [symmetry; exact Hev|].
  intros Hok. symmetry. exact (Hdst Hok).
Qed.

Lemma conversion_repeatable_witness :
  fst (@convert sim_host "part.stl" "part.glb"
         (snd (@convert sim_host "part.stl" "part.glb" state0)))
  = fst (@convert sim_host "part.stl" "part.glb" state0)
  /\ new_events (snd (@convert sim_host "part.stl" "part.glb" state0))
       (snd (@convert sim_host "part.stl" "part.glb"
               (snd (@convert sim_host "part.stl" "part.glb" state0))))
     = new_events state0 (snd (@convert sim_host "part.stl" "part.glb" state0))
  /\ (fst (@convert sim_host "part.stl" "part.glb" state0) = Ok tt ->
      files (world (snd (@convert sim_host "part.stl" "part.glb"
                           (snd (@convert sim_host "part.stl" "part.glb" state0)))))
        !! "part.glb"
      = files (world (snd (@convert sim_host "part.stl" "part.glb" state0))) !! "part.glb").
Proof.
  apply (@conversion_repeatable sim_host "part.stl" "part.glb" state0
           (with_objects [set_select true cube] world0)
           (with_objects [] world0)
           (with_objects [{| ob_name := "part.stl"; ob_select := true |}]
              (with_file "part.glb" (encode [{| ob_name := "part.stl"; ob_select := true |}])
                 world0))
           (with_objects []
              (with_file "part.glb" (encode [{| ob_name := "part.stl"; ob_select := true |}])
                 world0))
           sim_selects_all sim_deletes_selected
           sim_import_deterministic sim_export_deterministic);
    vm_compute; reflexivity.
Defined.

(** * Further properties of the script *)

(** ** Lines 5-9: reading the command line *)

Lemma list_index_inv x l i :
  list_index x l = Ok i ->
  l = (take i l ++ x :: drop (S i) l)%list /\ x ∉ take i l.
Proof.
  revert i. induction l as [|y l IH]; intros i Hi; [discriminate Hi|].
  cbn [list_index] in Hi.
  destruct (String.eqb y x) eqn:E.
  - injection Hi as <-. apply String.eqb_eq in E as ->.
    split; [reflexivity|]. cbn [take]. apply not_elem_of_nil.
  - destruct (list_index x l) as [j|e]; [|discriminate Hi].
    cbn [bind] in Hi. injection Hi as <-.
    destruct (IH j eq_refl) as [Hl Hnot].
    apply String.eqb_neq in E.
    split.
    + cbn [take drop app]. f_equal. exact Hl.
    + cbn [take]. apply not_elem_of_cons. split; [congruence|exact Hnot].
Qed.

Lemma list_index_raise x l e :
  list_index x l = Raise e -> e = ValueError /\ x ∉ l.
Proof.
  induction l as [|y l IH]; intros Hr.
  - injection Hr as <-. split; [reflexivity|apply not_elem_of_nil].
  - cbn [list_index] in Hr.
    destruct (String.eqb y x) eqn:E; [discriminate Hr|].
    destruct (list_index x l) as [j|e']; [discriminate Hr|].
    cbn [bind] in Hr. injection Hr as <-.
    destruct (IH eq_refl) as [-> Hnot]. apply String.eqb_neq in E.
    split; [reflexivity|]. apply not_elem_of_cons. split; [congruence|exact Hnot].
Qed.

Lemma script_argv_inv l rest :
  script_argv l = Ok rest ->
  exists pre, l = (pre ++ "--" :: rest)%list /\ "--" ∉ pre.
Proof.
  unfold script_argv, slice_from. intros Hs.
  destruct (list_index "--" l) as [i|e] eqn:Hi; [|discriminate Hs].
  cbn [bind] in Hs. injection Hs as <-.
  destruct (list_index_inv _ _ _ Hi) as [Hl Hnot].
  exists (take i l). split; [|exact Hnot].
  replace (i + 1)%nat with (S i) by lia. exact Hl.
Qed.

(** X1: the command line is accepted exactly when it has a ["--"] with at
    least two arguments after the first one, and the two paths are then
    those two arguments: a later ["--"] is an argument like any other. *)
Theorem parse_args_ok_iff (l : list string) (s d : string) :
  parse_args l = Ok (s, d)
  <-> exists pre rest : list string,
        l = (pre ++ "--" :: s :: d :: rest)%list /\ "--" ∉ pre.
Proof.
  split.
  - unfold parse_args. intros Hp.
    destruct (script_argv l) as [argv|e] eqn:Hs; [|discriminate Hp].
    cbn [bind] in Hp.
    destruct argv as [|a [|b rest]]; try discriminate Hp.
    injection Hp as -> ->.
    destruct (script_argv_inv _ _ Hs) as [pre [Hl Hnot]].
    exists pre, rest. split; assumption.
  - intros [pre [rest [-> Hnot]]]. unfold parse_args.
    rewrite script_argv_app by assumption. reflexivity.
Qed.

(** X2: the command line is refused in two ways only: [ValueError] when
    it holds no ["--"] at all, [IndexError] when fewer than two arguments
    follow the first ["--"]. *)
Theorem parse_args_raise_cases (l : list string) (e : exn) :
  parse_args l = Raise e ->
  (e = ValueError /\ "--" ∉ l)
  \/ (e = IndexError
      /\ exists pre rest : list string,
           l = (pre ++ "--" :: rest)%list /\ ("--" ∉ pre) /\ (length rest < 2)%nat).
Proof.
  unfold parse_args. intros Hp.
  destruct (script_argv l) as [argv|e'] eqn:Hs.
  - right. cbn [bind] in Hp.
    destruct (script_argv_inv _ _ Hs) as [pre [Hl Hnot]].
    destruct argv as [|a [|b rest]]; try discriminate Hp;
      injection Hp as <-; (split; [reflexivity|]);
      eexists pre, _; (split; [exact Hl|]); (split; [exact Hnot|]);
      cbn [length]; lia.
  - left. cbn [bind] in Hp. injection Hp as <-.
    unfold script_argv in Hs.
    destruct (list_index "--" l) as [i|e''] eqn:Hi; [discriminate Hs|].
    cbn [bind] in Hs. injection Hs as <-.
    exact (list_index_raise _ _ _ Hi).
Qed.

Lemma parse_args_raise_witness :
  (IndexError = ValueError /\ "--" ∉ ["blender"; "-b"; "--"; "part.stl"])
  \/ (IndexError = IndexError
      /\ exists pre rest : list string,
           ["blender"; "-b"; "--"; "part.stl"] = (pre ++ "--" :: rest)%list
           /\ ("--" ∉ pre) /\ (length rest < 2)%nat).
Proof.
  apply (parse_args_raise_cases ["blender"; "-b"; "--"; "part.stl"] IndexError).
  reflexivity.
Defined.

(** ** Lines 11-27: where a run stops *)

Lemma new_events_same st : new_events st st = [].
Proof. unfold new_events. apply drop_all. Qed.

(** X3: the success message is printed exactly when all four host calls
    have returned; in every other run nothing is printed at all. *)
Theorem success_line_iff_pipeline {H : Host}
    (inv : Invocation) (s d : string) (st : State) :
  parse_args (sys_argv inv) = Ok (s, d) ->
  ((exists w1 w2 w3 w4,
      object_select_all "SELECT" (world st) = Returned w1
      /\ object_delete false w1 = Returned w2
      /\ wm_stl_import s w2 = Returned w3
      /\ export_scene_gltf d "GLB" w3 = Returned w4)
   <-> head (printed (new_events st (snd (main inv st)))) = Some (success_line s d))
  /\ (printed (new_events st (snd (main inv st))) = []
      \/ head (printed (new_events st (snd (main inv st)))) = Some (success_line s d)).
Proof.
  intros Hp. rewrite (main_parsed _ _ _ _ Hp).
  destruct (convert_conversion s d st) as
    [e w1 Hs|w1 e w2 Hs Hd|w1 w2 e w3 Hs Hd Hi|w1 w2 w3 e w4 Hs Hd Hi He
    |w1 w2 w3 w4 Hs Hd Hi He];
    cbn [snd]; rewrite ?report_output_events; cbn [world trace];
    rewrite <- ?app_assoc, ?new_events_app.
  1-4: split; [|left; reflexivity];
       (split; [intros (v1 & v2 & v3 & v4 & Hs' & Hd' & Hi' & He'); same_outcome
               |intros Hhead; discriminate Hhead]).
  split; [|right; reflexivity].
  split; [reflexivity|]. intros _. exists w1, w2, w3, w4. auto.
Qed.

Lemma success_line_witness :
  ((exists w1 w2 w3 w4,
      @object_select_all readonly_host "SELECT" (world state0) = Returned w1
      /\ @object_delete readonly_host false w1 = Returned w2
      /\ @wm_stl_import readonly_host "part.stl" w2 = Returned w3
      /\ @export_scene_gltf readonly_host "part.glb" "GLB" w3 = Returned w4)
   <-> head (printed (new_events state0 (snd (@main readonly_host inv0 state0))))
       = Some (success_line "part.stl" "part.glb"))
  /\ (printed (new_events state0 (snd (@main readonly_host inv0 state0))) = []
      \/ head (printed (new_events state0 (snd (@main readonly_host inv0 state0))))
         = Some (success_line "part.stl" "part.glb")).
Proof.
  apply (@success_line_iff_pipeline readonly_host inv0 "part.stl" "part.glb" state0).
  reflexivity.
Defined.

(** X4: when the exporter raises, the run ends there with that
    exception: no success message, no existence check, nothing printed,
    and the world is as the exporter left it. *)
Theorem export_failure_prints_nothing {H : Host}
    (inv : Invocation) (s d : string) (st : State) (w1 w2 w3 w4 : World) (e : exn) :
  parse_args (sys_argv inv) = Ok (s, d) ->
  object_select_all "SELECT" (world st) = Returned w1 ->
  object_delete false w1 = Returned w2 ->
  wm_stl_import s w2 = Returned w3 ->
  export_scene_gltf d "GLB" w3 = Raised e w4 ->
  main inv st
  = (Raise e,
     {| world := w4;
        trace := trace st ++ [SelectAll "SELECT"; Delete false; StlImport s;
                              GltfExport d "GLB"] |})
  /\ printed (new_events st (snd (main inv st))) = []
  /\ PathExists d ∉ new_events st (snd (main inv st)).
Proof.
  intros Hp Hsel Hdel Himp Hexp. rewrite (main_parsed _ _ _ _ Hp).
  destruct (convert_conversion s d st); same_outcome.
  split; [reflexivity|]. cbn [snd]. rewrite new_events_app.
  split; [reflexivity|].
  rewrite !not_elem_of_cons. repeat split; try discriminate. apply not_elem_of_nil.
Qed.

Lemma export_failure_witness :
  @main readonly_host inv0 state0
  = (Raise (RuntimeError "Cannot write file"),
     {| world := with_objects [{| ob_name := "part.stl"; ob_select := true |}] world0;
        trace := [SelectAll "SELECT"; Delete false; StlImport "part.stl";
                  GltfExport "part.glb" "GLB"] |})
  /\ printed (new_events state0 (snd (@main readonly_host inv0 state0))) = []
  /\ PathExists "part.glb" ∉ new_events state0 (snd (@main readonly_host inv0 state0)).
Proof.
  apply (@export_failure_prints_nothing readonly_host inv0 "part.stl" "part.glb" state0
           (with_objects [set_select true cube] world0)
           (with_objects [] world0)
           (with_objects [{| ob_name := "part.stl"; ob_select := true |}] world0));
    reflexivity.
Defined.

(** X5: when the scene cannot be cleared, because select_all raises or
    because delete does, the run ends at that call with its exception:
    neither the importer nor the exporter is called, so no source is read
    and no destination written by this run. *)
Theorem clear_failure_stops_run {H : Host}
    (inv : Invocation) (s d : string) (st : State) (e : exn) (w' : World) :
  parse_args (sys_argv inv) = Ok (s, d) ->
  (object_select_all "SELECT" (world st) = Raised e w' ->
   main inv st
   = (Raise e, {| world := w'; trace := trace st ++ [SelectAll "SELECT"] |}))
  /\ (forall w1,
        object_select_all "SELECT" (world st) = Returned w1 ->
        object_delete false w1 = Raised e w' ->
        main inv st
        = (Raise e,
           {| world := w'; trace := trace st ++ [SelectAll "SELECT"; Delete false] |})).
Proof.
  intros Hp. rewrite (main_parsed _ _ _ _ Hp). split.
  - intros Hsel. destruct (convert_conversion s d st); same_outcome. reflexivity.
  - intros w1 Hsel Hdel. destruct (convert_conversion s d st); same_outcome. reflexivity.
Qed.

Lemma clear_failure_witness :
  @main (stuck_host false) inv0 state0
  = (Raise (RuntimeError "select_all.poll() failed, context is incorrect"),
     {| world := world0; trace := [SelectAll "SELECT"] |})
  /\ @main (stuck_host true) inv0 state0
     = (Raise (RuntimeError "delete.poll() failed, context is incorrect"),
        {| world := with_objects [set_select true cube] world0;
           trace := [SelectAll "SELECT"; Delete false] |}).
Proof.
  split.
  - apply (proj1 (@clear_failure_stops_run (stuck_host false) inv0 "part.stl" "part.glb"
                    state0 _ world0 eq_refl)).
    reflexivity.
  - apply (proj2 (@clear_failure_stops_run (stuck_host true) inv0 "part.stl" "part.glb"
                    state0 _ (with_objects [set_select true cube] world0) eq_refl)
             (with_objects [set_select true cube] world0));
      reflexivity.
Defined.

(** X6: the script itself changes neither the scene nor the files: once
    the exporter has returned, the world at the end of the run is the one
    the exporter left, whether the destination exists or not and whatever
    its size. *)
Theorem report_leaves_world {H : Host}
    (inv : Invocation) (s d : string) (st : State) (w1 w2 w3 w4 : World) :
  parse_args (sys_argv inv) = Ok (s, d) ->
  object_select_all "SELECT" (world st) = Returned w1 ->
  object_delete false w1 = Returned w2 ->
  wm_stl_import s w2 = Returned w3 ->
  export_scene_gltf d "GLB" w3 = Returned w4 ->
  world (snd (main inv st)) = w4.
Proof.
  intros Hp Hsel Hdel Himp Hexp. rewrite (main_parsed _ _ _ _ Hp).
  rewrite (pipeline_returned s d st w1 w2 w3 w4) by assumption.
  rewrite report_output_events. reflexivity.
Qed.

Lemma report_leaves_world_witness :
  world (snd (@main sim_host inv0 state0))
  = with_file "part.glb" (encode [{| ob_name := "part.stl"; ob_select := true |}])
      (with_objects [{| ob_name := "part.stl"; ob_select := true |}] world0).
Proof.
  apply (@report_leaves_world sim_host inv0 "part.stl" "part.glb" state0
           (with_objects [set_select true cube] world0)
           (with_objects [] world0)
           (with_objects [{| ob_name := "part.stl"; ob_select := true |}] world0));
    reflexivity.
Defined.

Ltac count_calls :=
  repeat first
    [ rewrite filter_cons_True by reflexivity
    | rewrite filter_cons_False by (cbn; discriminate) ];
  rewrite filter_nil; cbn [length]; lia.

(** X7: a run calls the importer at most once and the exporter at most
    once, whatever the command line and whatever the host does. *)
Theorem calls_at_most_once {H : Host} (inv : Invocation) (st : State) :
  (length (filter (fun ev => is_import ev = true)
             (new_events st (snd (main inv st)))) <= 1)%nat
  /\ (length (filter (fun ev => is_export ev = true)
                (new_events st (snd (main inv st)))) <= 1)%nat.
Proof.
  destruct (parse_args (sys_argv inv)) as [[s d]|e] eqn:Hp.
  2:{ rewrite (main_unparsed _ _ _ Hp). cbn [snd]. rewrite new_events_same.
      split; count_calls. }
  rewrite (main_parsed _ _ _ _ Hp).
  destruct (convert_conversion s d st); cbn [snd];
    rewrite ?report_output_events; cbn [world trace];
    rewrite <- ?app_assoc, ?new_events_app; cbn [app].
  1-4: split; count_calls.
  unfold report_events.
  destruct (files w4 !! d) as [data|]; [destruct (int_truediv _ _)|];
    split; count_calls.
Qed.

(** ** Lines 23-25: the size that is reported *)

(** The quotient of a size below 2^72 by 2^20: the size is brought to 53
    significant bits, and nothing overflows. *)
Lemma int_truediv_size n :
  0 < n < 2 ^ 72 ->
  int_truediv n (1024 * 1024)
  = Ok (Float false (round_half_even (n * 2 ^ (72 - Z.log2 n)) (2 ^ 20))
          (Z.log2 n - 72)).
Proof.
  intros [Hpos Hlt].
  change (1024 * 1024) with (2 ^ 20).
  pose proof (Z.log2_spec n Hpos) as [Hlo Hhi].
  assert (HL : 0 <= Z.log2 n <= 71).
  { split; [apply Z.log2_nonneg|].
    assert (Z.log2 n < 72); [|lia].
    apply Z.log2_lt_pow2; lia. }
  unfold int_truediv.
  replace (2 ^ 20 =? 0) with false by reflexivity.
  replace (n =? 0) with false by (symmetry; apply Z.eqb_neq; lia).
  replace (n <? 0) with false by (symmetry; apply Z.ltb_ge; lia).
  replace (2 ^ 20 <? 0) with false by reflexivity.
  rewrite (Z.abs_eq n) by lia.
  replace (Z.abs (2 ^ 20)) with (2 ^ 20) by reflexivity.
  replace (Z.log2 (2 ^ 20)) with 20 by reflexivity.
  cbv zeta.
  set (L := Z.log2 n) in *.
  assert (Hbelow :
    (if 0 <=? L - 20 then n <? 2 ^ 20 * 2 ^ (L - 20)
     else n * 2 ^ (- (L - 20)) <? 2 ^ 20) = false).
  { destruct (Z.leb_spec 0 (L - 20)).
    - apply Z.ltb_ge. rewrite <- Z.pow_add_r by lia.
      replace (20 + (L - 20)) with L by lia. exact Hlo.
    - apply Z.ltb_ge.
      replace (2 ^ 20) with (2 ^ L * 2 ^ (- (L - 20))).
      + apply Z.mul_le_mono_nonneg_r; [apply Z.pow_nonneg; lia|exact Hlo].
      + rewrite <- Z.pow_add_r by lia. f_equal. lia. }
  rewrite Hbelow.
  rewrite Z.max_l by lia.
  replace (0 <=? L - 20 - 52) with false by (symmetry; apply Z.leb_gt; lia).
  rewrite (Z.pow_neg_r 2 (L - 20 - 52)) by lia.
  rewrite Z.mul_0_r.
  replace (2 ^ 1024 <=? 0) with false.
  2:{ symmetry. apply Z.leb_gt. apply Z.pow_pos_nonneg; lia. }
  unfold xorb. f_equal. f_equal; [|lia].
  f_equal. f_equal. f_equal. lia.
Qed.

Lemma round_half_even_mono n m d :
  0 < d -> n <= m -> round_half_even n d <= round_half_even m d.
Proof.
  intros Hd Hnm. unfold round_half_even.
  pose proof (Z.div_mod n d ltac:(lia)) as Hn.
  pose proof (Z.div_mod m d ltac:(lia)) as Hm.
  pose proof (Z.mod_pos_bound n d Hd) as Hrn.
  pose proof (Z.mod_pos_bound m d Hd) as Hrm.
  pose proof (Z.div_le_mono n m d Hd Hnm) as Hq.
  destruct (Z.eq_dec (n / d) (m / d)) as [Heq|Hne].
  - rewrite Heq in *.
    destruct (Z.compare_spec (2 * (n mod d)) d);
      destruct (Z.compare_spec (2 * (m mod d)) d);
      destruct (Z.even (m / d)); lia.
  - destruct (Z.compare_spec (2 * (n mod d)) d);
      destruct (Z.compare_spec (2 * (m mod d)) d);
      destruct (Z.even (n / d)); destruct (Z.even (m / d)); lia.
Qed.

(** Below 2^53 the hundredths printed are those of the exact quotient. *)
Lemma hundredths_exact n :
  0 <= n < 2 ^ 53 ->
  exists x,
    int_truediv n (1024 * 1024) = Ok x
    /\ sign x = false
    /\ hundredths x = round_half_even (100 * n) 1048576.
Proof.
  intros [Hlo Hhi].
  destruct (Z.eq_dec n 0) as [->|Hne].
  { eexists. repeat split; reflexivity. }
  rewrite int_truediv_mib by lia.
  eexists. split; [reflexivity|]. split; [reflexivity|].
  unfold hundredths. cbn [mant expo].
  pose proof (Z.log2_nonneg n) as HL0.
  assert (HL : Z.log2 n < 53) by (apply Z.log2_lt_pow2; lia).
  replace (0 <=? Z.log2 n - 72) with false by (symmetry; apply Z.leb_gt; lia).
  replace (100 * (n * 2 ^ (52 - Z.log2 n)))
    with (2 ^ (52 - Z.log2 n) * (100 * n)) by ring.
  replace (2 ^ (- (Z.log2 n - 72))) with (2 ^ (52 - Z.log2 n) * 1048576).
  2:{ change 1048576 with (2 ^ 20). rewrite <- Z.pow_add_r by lia. f_equal. lia. }
  apply round_half_even_scale; [apply Z.pow_pos_nonneg; lia|reflexivity].
Qed.

(** X8: for every size below 2^63 bytes, which covers whatever a file
    system reports, the division does not raise and the value printed is
    within one hundredth of [n / 1048576]. *)
Theorem size_report_within_hundredth (n : Z) :
  0 <= n < 2 ^ 63 ->
  exists x,
    int_truediv n (1024 * 1024) = Ok x
    /\ size_line x = "📦 GLB file size: " ++ fixed2 (hundredths x) ++ " MB"
    /\ Z.abs (hundredths x * 1048576 - 100 * n) < 1048576.
Proof.
  intros [Hlo Hhi].
  destruct (Z.eq_dec n 0) as [->|Hne].
  { eexists. repeat split; reflexivity. }
  rewrite int_truediv_size by lia.
  eexists. split; [reflexivity|]. split; [reflexivity|].
  unfold hundredths. cbn [mant expo].
  pose proof (Z.log2_nonneg n) as HL0.
  assert (HL : Z.log2 n < 63) by (apply Z.log2_lt_pow2; lia).
  replace (0 <=? Z.log2 n - 72) with false by (symmetry; apply Z.leb_gt; lia).
  replace (- (Z.log2 n - 72)) with (72 - Z.log2 n) by lia.
  change (2 ^ 20) with 1048576.
  set (c := 2 ^ (72 - Z.log2 n)).
  assert (Hc : 1024 <= c).
  { change 1024 with (2 ^ 10). apply Z.pow_le_mono_r; lia. }
  set (m := round_half_even (n * c) 1048576).
  pose proof (round_half_even_nearest (n * c) 1048576 eq_refl) as Hm.
  fold m in Hm.
  set (h := round_half_even (100 * m) c).
  pose proof (round_half_even_nearest (100 * m) c ltac:(lia)) as Hh.
  fold h in Hh.
  assert (Hsum : c * (h * 1048576 - 100 * n)
                 = (h * c - 100 * m) * 1048576 + 100 * (m * 1048576 - n * c)) by ring.
  assert (Hbound : 2 * Z.abs (c * (h * 1048576 - 100 * n)) <= c * 1048576 + 100 * 1048576).
  { rewrite Hsum. lia. }
  rewrite Z.abs_mul, (Z.abs_eq c) in Hbound by lia.
  nia.
Qed.

Lemma size_report_witness :
  exists x,
    int_truediv 9007199254872065 (1024 * 1024) = Ok x
    /\ size_line x = "📦 GLB file size: " ++ fixed2 (hundredths x) ++ " MB"
    /\ Z.abs (hundredths x * 1048576 - 100 * 9007199254872065) < 1048576.
Proof.
  apply (size_report_within_hundredth 9007199254872065). lia.
Defined.

(** X9: when the exporter has returned and the destination exists with
    fewer than 2^63 bytes, the run returns normally and prints exactly
    two lines, the success message and a size line: neither [getsize] nor
    the division raises. *)
Theorem present_output_is_sized {H : Host}
    (inv : Invocation) (s d : string) (st : State) (w1 w2 w3 w4 : World)
    (data : list Byte.byte) :
  parse_args (sys_argv inv) = Ok (s, d) ->
  object_select_all "SELECT" (world st) = Returned w1 ->
  object_delete false w1 = Returned w2 ->
  wm_stl_import s w2 = Returned w3 ->
  export_scene_gltf d "GLB" w3 = Returned w4 ->
  files w4 !! d = Some data ->
  Z.of_nat (length data) < 2 ^ 63 ->
  exists x,
    int_truediv (Z.of_nat (length data)) (1024 * 1024) = Ok x
    /\ fst (main inv st) = Ok tt
    /\ printed (new_events st (snd (main inv st))) = [success_line s d; size_line x].
Proof.
  intros Hp Hsel Hdel Himp Hexp Hsome Hsmall.
  destruct (size_report_within_hundredth (Z.of_nat (length data)) ltac:(lia))
    as [x [Hx _]].
  exists x. split; [exact Hx|].
  rewrite (main_parsed _ _ _ _ Hp).
  rewrite (pipeline_returned s d st w1 w2 w3 w4) by assumption.
  erewrite report_present by (cbn [world]; exact Hsome).
  rewrite Hx. cbn [fst snd world trace]. split; [reflexivity|].
  rewrite <- app_assoc, new_events_app. reflexivity.
Qed.

Lemma present_output_witness :
  exists x,
    int_truediv (Z.of_nat (length (repeat Byte.x00 20))) (1024 * 1024) = Ok x
    /\ fst (@main sim_host inv0 state0) = Ok tt
    /\ printed (new_events state0 (snd (@main sim_host inv0 state0)))
       = [success_line "part.stl" "part.glb"; size_line x].
Proof.
  apply (@present_output_is_sized sim_host inv0 "part.stl" "part.glb" state0
           (with_objects [set_select true cube] world0)
           (with_objects [] world0)
           (with_objects [{| ob_name := "part.stl"; ob_select := true |}] world0)
           (with_file "part.glb" (repeat Byte.x00 20)
              (with_objects [{| ob_name := "part.stl"; ob_select := true |}] world0))
           (repeat Byte.x00 20));
    reflexivity.
Defined.

(** X10: below 2^53 bytes the reported value never decreases when the
    size grows. *)
Theorem reported_size_monotone (n m : Z) :
  0 <= n -> n <= m -> m < 2 ^ 53 ->
  exists x y,
    int_truediv n (1024 * 1024) = Ok x
    /\ int_truediv m (1024 * 1024) = Ok y
    /\ format_2f x = fixed2 (hundredths x)
    /\ format_2f y = fixed2 (hundredths y)
    /\ hundredths x <= hundredths y.
Proof.
  intros Hn Hnm Hm.
  destruct (hundredths_exact n ltac:(lia)) as [x [Hx [Hsx Hhx]]].
  destruct (hundredths_exact m ltac:(lia)) as [y [Hy [Hsy Hhy]]].
  exists x, y. split; [exact Hx|]. split; [exact Hy|].
  unfold format_2f. rewrite Hsx, Hsy. split; [reflexivity|]. split; [reflexivity|].
  rewrite Hhx, Hhy. apply round_half_even_mono; [reflexivity|lia].
Qed.

Lemma reported_size_monotone_witness :
  exists x y,
    int_truediv 5242 (1024 * 1024) = Ok x
    /\ int_truediv 5243 (1024 * 1024) = Ok y
    /\ format_2f x = fixed2 (hundredths x)
    /\ format_2f y = fixed2 (hundredths y)
    /\ hundredths x <= hundredths y.
Proof.
  apply (reported_size_monotone 5242 5243); lia.
Defined.

(** X11: a destination is reported as 0.00 MB exactly when it holds at
    most 5242 bytes (sizes below 2^53). *)
Theorem zero_megabytes_iff (n : Z) :
  0 <= n < 2 ^ 53 ->
  exists x,
    int_truediv n (1024 * 1024) = Ok x
    /\ (hundredths x = 0 <-> n <= 5242)
    /\ (n <= 5242 -> size_line x = "📦 GLB file size: 0.00 MB").
Proof.
  intros Hn.
  destruct (hundredths_exact n Hn) as [x [Hx [Hsx Hhx]]].
  exists x. split; [exact Hx|].
  assert (Hiff : hundredths x = 0 <-> n <= 5242).
  { rewrite Hhx. unfold round_half_even.
    pose proof (Z.div_mod (100 * n) 1048576 ltac:(lia)) as Hdm.
    pose proof (Z.mod_pos_bound (100 * n) 1048576 eq_refl) as Hr.
    assert (Hq : 0 <= 100 * n / 1048576) by (apply Z.div_pos; lia).
    destruct (Z.compare_spec (2 * ((100 * n) mod 1048576)) 1048576);
      [destruct (Z.even (100 * n / 1048576)) eqn:He|..]; lia. }
  split; [exact Hiff|].
  intros Hle. unfold size_line, format_2f. rewrite Hsx.
  rewrite (proj2 Hiff Hle). reflexivity.
Qed.

Lemma zero_megabytes_witness :
  exists x,
    int_truediv 5242 (1024 * 1024) = Ok x
    /\ (hundredths x = 0 <-> 5242 <= 5242)
    /\ (5242 <= 5242 -> size_line x = "📦 GLB file size: 0.00 MB").
Proof.
  apply (zero_megabytes_iff 5242). lia.
Defined.

(** X12: [os.path.getsize] is only ever called on a path that exists:
    whenever a run asks for a size, that path has an entry in the file
    system the run ends with, so the size query cannot fail. *)
Theorem getsize_only_on_existing {H : Host}
    (inv : Invocation) (st : State) (p : string) :
  GetSize p ∈ new_events st (snd (main inv st)) ->
  is_Some (files (world (snd (main inv st))) !! p).
Proof.
  destruct (parse_args (sys_argv inv)) as [[s d]|e] eqn:Hp.
  2:{ rewrite (main_unparsed _ _ _ Hp). cbn [snd]. rewrite new_events_same.
      intros Hin. apply elem_of_nil in Hin. contradiction. }
  rewrite (main_parsed _ _ _ _ Hp).
  destruct (convert_conversion s d st); cbn [snd];
    rewrite ?report_output_events; cbn [world trace];
    rewrite <- ?app_assoc, ?new_events_app; cbn [app]; intros Hin.
  1-4: repeat (apply elem_of_cons in Hin as [Hin|Hin]; [discriminate Hin|]);
       apply elem_of_nil in Hin; contradiction.
  unfold report_events in Hin.
  destruct (files w4 !! d) as [data|] eqn:Hd.
  - do 6 (apply elem_of_cons in Hin as [Hin|Hin]; [discriminate Hin|]).
    apply elem_of_cons in Hin as [Hin|Hin].
    + injection Hin as ->. rewrite Hd. eexists. reflexivity.
    + destruct (int_truediv _ _);
        repeat (apply elem_of_cons in Hin as [Hin|Hin]; [discriminate Hin|]);
        apply elem_of_nil in Hin; contradiction.
  - repeat (apply elem_of_cons in Hin as [Hin|Hin]; [discriminate Hin|]).
    apply elem_of_nil in Hin. contradiction.
Qed.

Lemma getsize_only_on_existing_witness :
  is_Some (files (world (snd (@main sim_host inv0 state0))) !! "part.glb").
Proof.
  apply (@getsize_only_on_existing sim_host inv0 state0 "part.glb").
  assert (E : new_events state0 (snd (@main sim_host inv0 state0))
              = [SelectAll "SELECT"; Delete false; StlImport "part.stl";
                 GltfExport "part.glb" "GLB";
                 Print "✅ Successfully converted part.stl to part.glb";
                 PathExists "part.glb"; GetSize "part.glb";
                 Print "📦 GLB file size: 0.00 MB"])
    by (vm_compute; reflexivity).
  rewrite E. do 6 apply list_elem_of_further. apply list_elem_of_here.
Defined.
